(** * Fixed-step integrators of [proj_4_module.py]

    A shallow embedding of [dynamics_solve] and [hamiltonian_solve], the two
    functions of the module, and the properties of their trajectories.

    The Python code works on NumPy arrays of binary64 floats.  The embedding
    keeps the code's structure -- the time grid, the zero-initialised
    buffers, the stores [S[n + 1] = ...] and the reads [S[n]] -- and is
    generic in the arithmetic: every operation the code performs on floats
    is an operation of the class [Num].  Results proved for every instance
    hold in particular for binary64 ([Num float]) and for exact rational
    arithmetic ([Num Q]). *)

From Stdlib Require Import ZArith QArith Qabs Lia Floats.
From stdpp Require Import base option list strings.

Local Open Scope string_scope.
Local Open Scope nat_scope.

(** ** Arithmetic of the floats *)

(** The operations the source applies to Python floats and NumPy float64
    values.  [of_int] is the conversion of a Python [int] that meets a float
    in an arithmetic operation ([n * h], [2*k2], [1/6]); [lit_half] is the
    literal [.5]. *)
Class Num (R : Type) := {
  of_int : Z → R;
  lit_half : R;
  radd : R → R → R;
  rsub : R → R → R;
  rmul : R → R → R;
  rdiv : R → R → R;
  rneg : R → R;
}.

(** ** NumPy values *)

(** A state is a float ([np.float64], the entry of a one-dimensional buffer)
    or a one-dimensional array (a row of a two-dimensional buffer). *)
Inductive value (R : Type) : Type :=
  | Scalar (x : R)
  | Array (xs : list R).
Arguments Scalar {R} x.
Arguments Array {R} xs.

Inductive shape : Type :=
  | ShScalar
  | ShArray (len : nat).

Definition shape_of {R} (v : value R) : shape :=
  match v with
  | Scalar _ => ShScalar
  | Array xs => ShArray (length xs)
  end.

(** Elementwise binary operation with NumPy's broadcasting: a scalar is
    stretched over an array, two arrays need equal lengths unless one of
    them has length one; otherwise NumPy raises [ValueError]. *)
Definition broadcast {R} (op : R → R → R) (a b : value R) : option (value R) :=
  match a, b with
  | Scalar x, Scalar y => Some (Scalar (op x y))
  | Scalar x, Array ys => Some (Array (map (op x) ys))
  | Array xs, Scalar y => Some (Array (map (λ x, op x y) xs))
  | Array xs, Array ys =>
      if length xs =? length ys then Some (Array (zip_with op xs ys))
      else match xs, ys with
           | [x], _ => Some (Array (map (op x) ys))
           | _, [y] => Some (Array (map (λ x, op x y) xs))
           | _, _ => None
           end
  end.

(** The value a slot holds after [S[i] = new], when it held [old]: the
    buffer keeps its shape and the stored value is broadcast to it.  A slot
    of a one-dimensional buffer takes a float, or the element of an array of
    size one; a row of a two-dimensional buffer takes a float (copied to
    every column), an array of the row's length, or one of length one.
    Anything else raises [ValueError]. *)
Definition assign {R} (old new : value R) : option (value R) :=
  match old, new with
  | Scalar _, Scalar x => Some (Scalar x)
  | Scalar _, Array [x] => Some (Scalar x)
  | Scalar _, Array _ => None
  | Array row, Scalar x => Some (Array (replicate (length row) x))
  | Array row, Array xs =>
      if length xs =? length row then Some (Array xs)
      else match xs with
           | [x] => Some (Array (replicate (length row) x))
           | _ => None
           end
  end.

(** [S[i] = v]; [IndexError] when [i] is out of range. *)
Definition setitem {R} (S : list (value R)) (i : nat) (v : value R)
  : option (list (value R)) :=
  old ← S !! i;
  new ← assign old v;
  Some (<[i := new]> S).

(** [S[i] = e] for an expression [e] that may raise. *)
Definition store {R} (S : list (value R)) (i : nat) (e : option (value R))
  : option (list (value R)) :=
  v ← e; setitem S i v.

(** A Python callable on NumPy values: the list of its positional arguments
    to its result, [None] when the call raises (wrong number of arguments
    included). *)
Definition pyfun (R : Type) : Type := list (value R) → option (value R).

Definition call2 {R} (f : pyfun R) (a b : option (value R)) : option (value R) :=
  x ← a; y ← b; f [x; y].

Definition call3 {R} (f : pyfun R) (a b c : option (value R)) : option (value R) :=
  x ← a; y ← b; z ← c; f [x; y; z].

(** [for n in range(N): body], threading the buffers through the body. *)
Fixpoint for_each {St} (ns : list nat) (body : nat → St → option St) (st : St)
  : option St :=
  match ns with
  | [] => Some st
  | n :: ns' => st' ← body n st; for_each ns' body st'
  end.

Definition for_range {St} (N : nat) (body : nat → St → option St) (st : St)
  : option St :=
  for_each (seq 0 N) body st.

(** Expressions: every subexpression may raise. *)
Definition sc {R} (x : R) : option (value R) := Some (Scalar x).

Definition binop {R} (op : R → R → R) (a b : option (value R))
  : option (value R) :=
  x ← a; y ← b; broadcast op x y.

Notation "a ⊕ b" := (binop radd a b) (at level 50, left associativity).
Notation "a ⊖ b" := (binop rsub a b) (at level 50, left associativity).
Notation "a ⊗ b" := (binop rmul a b) (at level 40, left associativity).

Section Solvers.
Context {R : Type} `{Num R}.

#[local] Abbreviation value := (value R).
#[local] Abbreviation pyfun := (pyfun R).

(** [T[n]], an [np.float64]. *)
Definition getT (T : list R) (n : nat) : option value := Scalar <$> T !! n.

(** [np.array([t_0 + n * h for n in range(N + 1)])] *)
Definition time_grid (t_0 h : R) (N : nat) : list R :=
  map (λ n, radd t_0 (rmul (of_int (Z.of_nat n)) h)) (seq 0 (N + 1)).

(** [np.zeros(n)] and [np.zeros((n, D))] *)
Definition np_zeros1 (n : nat) : list value :=
  replicate n (Scalar (of_int 0)).
Definition np_zeros2 (n : nat) (D : Z) : list value :=
  replicate n (Array (replicate (Z.to_nat D) (of_int 0))).

(** The buffers of dimension [D]: bound by one of two [if]s, unbound
    ([None]) when neither fires, which makes the next statement raise
    [UnboundLocalError]. *)
Definition buffer (D : Z) (N : nat) : option (list value) :=
  let S := None in
  let S := if (D =? 1)%Z then Some (np_zeros1 (N + 1)) else S in
  let S := if (1 <? D)%Z then Some (np_zeros2 (N + 1) D) else S in
  S.

(** *** dynamics_solve *)

(** The bodies of the three loops (lines 40, 44-46 and 50-54). *)
Definition dynamics_Euler (f : pyfun) (h : R) (T : list R)
    (n : nat) (S : list value) : option (list value) :=
  store S (n + 1) (S !! n ⊕ sc h ⊗ call2 f (getT T n) (S !! n)).

Definition dynamics_RK2 (f : pyfun) (h : R) (T : list R)
    (n : nat) (S : list value) : option (list value) :=
  k1 ← sc h ⊗ call2 f (getT T n) (S !! n);
  k2 ← sc h ⊗ call2 f (getT T n ⊕ sc lit_half ⊗ sc h)
                       (S !! n ⊕ sc lit_half ⊗ Some k1);
  store S (n + 1) (S !! n ⊕ Some k2).

Definition dynamics_RK4 (f : pyfun) (h : R) (T : list R)
    (n : nat) (S : list value) : option (list value) :=
  k1 ← sc h ⊗ call2 f (getT T n) (S !! n);
  k2 ← sc h ⊗ call2 f (getT T n ⊕ sc lit_half ⊗ sc h)
                       (S !! n ⊕ sc lit_half ⊗ Some k1);
  k3 ← sc h ⊗ call2 f (getT T n ⊕ sc lit_half ⊗ sc h)
                       (S !! n ⊕ sc lit_half ⊗ Some k2);
  k4 ← sc h ⊗ call2 f (getT T n) (S !! n ⊕ Some k3);
  store S (n + 1)
    (S !! n ⊕ sc (rdiv (of_int 1) (of_int 6))
               ⊗ (Some k1 ⊕ sc (of_int 2) ⊗ Some k2
                           ⊕ sc (of_int 2) ⊗ Some k3 ⊕ Some k4)).

(** Lines 28-56: the time grid, the buffer, [S[0] = s_0], then one [if] per
    scheme name, each guarding its loop. *)
Definition dynamics_solve (f : pyfun) (D : Z) (t_0 : R) (s_0 : value)
    (h : R) (N : nat) (method : string) : option (list R * list value) :=
  let T := time_grid t_0 h N in
  S ← buffer D N;
  S ← setitem S 0 s_0;
  S ← (if String.eqb method "Euler" then for_range N (dynamics_Euler f h T) S
       else Some S);
  S ← (if String.eqb method "RK2" then for_range N (dynamics_RK2 f h T) S
       else Some S);
  S ← (if String.eqb method "RK4" then for_range N (dynamics_RK4 f h T) S
       else Some S);
  Some (T, S).

(** *** hamiltonian_solve *)

(** The state of the loops: the buffers [Q] and [P]. *)
Definition phase : Type := list value * list value.

(** Lines 101-102.  The second statement reads [Q[n]] from the buffer the
    first one has just written to. *)
Definition hamiltonian_Euler (d_qH d_pH : pyfun) (h : R)
    (n : nat) (QP : phase) : option phase :=
  let '(Q, P) := QP in
  Q ← store Q (n + 1) (Q !! n ⊕ sc h ⊗ call2 d_pH (Q !! n) (P !! n));
  P ← store P (n + 1) (P !! n ⊖ sc h ⊗ call2 d_qH (Q !! n) (P !! n));
  Some (Q, P).

(** Lines 108-115. *)
Definition hamiltonian_RK2 (d_qH d_pH : pyfun) (h : R)
    (n : nat) (QP : phase) : option phase :=
  let '(Q, P) := QP in
  k1_Q ← sc h ⊗ call2 d_pH (Q !! n) (P !! n);
  k1_P ← sc (rneg h) ⊗ call2 d_qH (Q !! n) (P !! n);
  k2_Q ← sc h ⊗ call2 d_pH (Q !! n ⊕ Some k1_Q ⊗ sc lit_half)
                            (P !! n ⊕ Some k1_Q ⊗ sc lit_half);
  k2_P ← sc (rneg h) ⊗ call2 d_qH (Q !! n ⊕ Some k1_P ⊗ sc lit_half)
                                   (P !! n ⊕ sc lit_half ⊗ Some k1_P);
  Q ← store Q (n + 1) (Q !! n ⊕ Some k2_Q);
  P ← store P (n + 1) (P !! n ⊕ Some k2_P);
  Some (Q, P).

(** Lines 121-134. *)
Definition hamiltonian_RK4 (d_qH d_pH : pyfun) (h : R)
    (n : nat) (QP : phase) : option phase :=
  let '(Q, P) := QP in
  k1_Q ← sc h ⊗ call2 d_pH (Q !! n) (P !! n);
  k1_P ← sc (rneg h) ⊗ call2 d_qH (Q !! n) (P !! n);
  k2_Q ← sc h ⊗ call2 d_pH (Q !! n ⊕ Some k1_Q ⊗ sc lit_half)
                            (P !! n ⊕ Some k1_Q ⊗ sc lit_half);
  k2_P ← sc (rneg h) ⊗ call2 d_qH (Q !! n ⊕ Some k1_P ⊗ sc lit_half)
                                   (P !! n ⊕ Some k1_P ⊗ sc lit_half);
  k3_Q ← sc h ⊗ call2 d_pH (Q !! n ⊕ Some k2_Q ⊗ sc lit_half)
                            (P !! n ⊕ Some k2_Q ⊗ sc lit_half);
  k3_P ← sc (rneg h) ⊗ call2 d_qH (Q !! n ⊕ Some k2_P ⊗ sc lit_half)
                                   (P !! n ⊕ Some k2_P ⊗ sc lit_half);
  k4_Q ← sc h ⊗ call2 d_pH (Q !! n ⊕ sc h) (P !! n ⊕ Some k3_Q);
  k4_P ← sc (rneg h) ⊗ call2 d_qH (Q !! n ⊕ sc h) (P !! n ⊕ Some k3_P);
  Q ← store Q (n + 1)
        (Q !! n ⊕ sc (rdiv (of_int 1) (of_int 6))
                   ⊗ (Some k1_Q ⊕ sc (of_int 2) ⊗ Some k2_Q
                                 ⊕ sc (of_int 2) ⊗ Some k3_Q ⊕ Some k4_Q));
  P ← store P (n + 1)
        (P !! n ⊕ sc (rdiv (of_int 1) (of_int 6))
                   ⊗ (Some k1_P ⊕ sc (of_int 2) ⊗ Some k2_P
                                 ⊕ sc (of_int 2) ⊗ Some k3_P ⊕ Some k4_P));
  Some (Q, P).

(** Lines 140-141: [d_qH] is called on [Q[n+1]], read back from the
    buffer. *)
Definition hamiltonian_SE (d_qH d_pH : pyfun) (h : R) (T : list R)
    (n : nat) (QP : phase) : option phase :=
  let '(Q, P) := QP in
  Q ← store Q (n + 1)
        (Q !! n ⊕ sc h ⊗ call3 d_pH (Q !! n) (P !! n) (getT T n));
  P ← store P (n + 1)
        (P !! n ⊖ sc h ⊗ call3 d_qH (Q !! (n + 1)) (P !! n) (getT T n));
  Some (Q, P).

(** Lines 147-149. *)
Definition hamiltonian_SV (d_qH d_pH : pyfun) (h : R) (T : list R)
    (n : nat) (QP : phase) : option phase :=
  let '(Q, P) := QP in
  k1 ← P !! n ⊖ sc h ⊗ sc lit_half
                 ⊗ call3 d_qH (Q !! n) (P !! n) (getT T n);
  Q ← store Q (n + 1)
        (Q !! n ⊕ sc h ⊗ call3 d_pH (Q !! n) (Some k1) (getT T n));
  P ← store P (n + 1)
        (Some k1 ⊖ sc h ⊗ sc lit_half
                    ⊗ call3 d_qH (Q !! (n + 1)) (P !! n) (getT T n));
  Some (Q, P).

(** Lines 86-151.  [K] and [m] are the keyword parameters of the same
    names. *)
Definition hamiltonian_solve (d_qH d_pH : pyfun) (d : Z) (t_0 : R)
    (q_0 p_0 : value) (h : R) (N : nat) (method : string) (K m : R)
  : option (list R * list value * list value) :=
  let T := time_grid t_0 h N in
  P ← buffer d N;
  Q ← buffer d N;
  P ← setitem P 0 p_0;
  Q ← setitem Q 0 q_0;
  QP ← (if String.eqb method "Euler"
        then for_range N (hamiltonian_Euler d_qH d_pH h) (Q, P)
        else Some (Q, P));
  QP ← (if String.eqb method "RK2"
        then for_range N (hamiltonian_RK2 d_qH d_pH h) QP
        else Some QP);
  QP ← (if String.eqb method "RK4"
        then for_range N (hamiltonian_RK4 d_qH d_pH h) QP
        else Some QP);
  QP ← (if String.eqb method "SE"
        then for_range N (hamiltonian_SE d_qH d_pH h T) QP
        else Some QP);
  QP ← (if String.eqb method "SV"
        then for_range N (hamiltonian_SV d_qH d_pH h T) QP
        else Some QP);
  Some (T, QP.1, QP.2).

End Solvers.

Arguments phase R : clear implicits.

(** ** Two arithmetics *)

(** Exact rational arithmetic, on fractions in lowest terms. *)
Global Instance Q_num : Num Q := {
  of_int := inject_Z;
  lit_half := (1 # 2)%Q;
  radd x y := Qred (x + y)%Q;
  rsub x y := Qred (x - y)%Q;
  rmul x y := Qred (x * y)%Q;
  rdiv x y := Qred (x / y)%Q;
  rneg x := Qred (- x)%Q;
}.

(** IEEE 754 binary64, round to nearest even: the arithmetic of Python
    floats and [np.float64].  [of_int] converts the integers below 2^63 in
    absolute value, which covers the step indices and the literals of the
    source. *)
Global Instance float_num : Num float := {
  of_int z :=
    if (z <? 0)%Z then PrimFloat.opp (PrimFloat.of_uint63 (Uint63.of_Z (- z)))
    else PrimFloat.of_uint63 (Uint63.of_Z z);
  lit_half := 0.5%float;
  radd := PrimFloat.add;
  rsub := PrimFloat.sub;
  rmul := PrimFloat.mul;
  rdiv := PrimFloat.div;
  rneg := PrimFloat.opp;
}.

(** ** Well-shaped inputs *)

Section Shapes.
Context {R : Type} `{Num R}.

#[local] Abbreviation value := (value R).
#[local] Abbreviation pyfun := (pyfun R).

(** The shape of one state of dimension [D]: a float when [D = 1], a row
    of [D] floats when [D > 1]. *)
Definition row_shape (D : Z) : shape :=
  if (D =? 1)%Z then ShScalar else ShArray (Z.to_nat D).

(** The entry [np.zeros] leaves in a buffer of dimension [D]. *)
Definition zero_state (D : Z) : value :=
  if (D =? 1)%Z then Scalar (of_int 0)
  else Array (replicate (Z.to_nat D) (of_int 0)).

(** The buffer after [S[0] = s_0]: the initial state, then [N] zeros. *)
Definition initial (D : Z) (N : nat) (s_0 : value) : list value :=
  <[0 := s_0]> (replicate (N + 1) (zero_state D)).

(** A buffer of [N + 1] states of one shape. *)
Definition wf (sh : shape) (N : nat) (S : list value) : Prop :=
  length S = N + 1 ∧ Forall (λ v, shape_of v = sh) S.

(** The result of an operation on operands that broadcast. *)
Definition vzip (op : R → R → R) (a b : value) : value :=
  match a, b with
  | Scalar x, Scalar y => Scalar (op x y)
  | Scalar x, Array ys => Array (map (op x) ys)
  | Array xs, Scalar y => Array (map (λ x, op x y) xs)
  | Array xs, Array ys => Array (zip_with op xs ys)
  end.

(** The value a call returns (a zero when it raises). *)
Definition returned (f : pyfun) (args : list value) : value :=
  default (Scalar (of_int 0)) (f args).

(** [f(t, s)] returns a state of the shape of [s]. *)
Definition field_ok (sh : shape) (f : pyfun) : Prop :=
  ∀ t s, shape_of s = sh →
    ∃ v, f [Scalar t; s] = Some v ∧ shape_of v = sh.

(** [g(q, p)], respectively [g(q, p, t)], returns a state of the shape of
    [q] and [p]. *)
Definition deriv_ok2 (sh : shape) (g : pyfun) : Prop :=
  ∀ q p, shape_of q = sh → shape_of p = sh →
    ∃ v, g [q; p] = Some v ∧ shape_of v = sh.

Definition deriv_ok3 (sh : shape) (g : pyfun) : Prop :=
  ∀ q p t, shape_of q = sh → shape_of p = sh →
    ∃ v, g [q; p; Scalar t] = Some v ∧ shape_of v = sh.

Definition is_one_of (names : list string) (method : string) : bool :=
  existsb (String.eqb method) names.

(** What a call needs of the derivative functions, by the scheme: the
    schemes of [dynamics_solve] call [f(t, s)]; in [hamiltonian_solve],
    Euler, RK2 and RK4 call [g(q, p)], SE and SV call [g(q, p, t)]; an
    unrecognised scheme needs nothing. *)
Definition field_ok_for (sh : shape) (method : string) (f : pyfun) : Prop :=
  if is_one_of ["Euler"; "RK2"; "RK4"] method then field_ok sh f else True.

Definition deriv_ok_for (sh : shape) (method : string) (g : pyfun) : Prop :=
  if is_one_of ["Euler"; "RK2"; "RK4"] method then deriv_ok2 sh g
  else if is_one_of ["SE"; "SV"] method then deriv_ok3 sh g
  else True.

End Shapes.

(** ** Sample systems *)

(** [f(t, s) = s] *)
Definition linear_field {R} : pyfun R :=
  λ args, match args with [_; s] => Some s | _ => None end.

(** [f(t, s) = t] *)
Definition clock_field {R} : pyfun R :=
  λ args, match args with [t; _] => Some t | _ => None end.

(** The harmonic oscillator [H = p²/2 + q²/2]: [dqH = q], [dpH = p], with
    an optional time argument. *)
Definition oscillator_dqH {R} : pyfun R :=
  λ args, match args with [q; _] | [q; _; _] => Some q | _ => None end.

Definition oscillator_dpH {R} : pyfun R :=
  λ args, match args with [_; p] | [_; p; _] => Some p | _ => None end.

(** The same oscillator written with exactly two parameters, [(q, p)], and
    with exactly three, [(q, p, t)]. *)
Definition oscillator2_dqH {R} : pyfun R :=
  λ args, match args with [q; _] => Some q | _ => None end.

Definition oscillator2_dpH {R} : pyfun R :=
  λ args, match args with [_; p] => Some p | _ => None end.

Definition oscillator3_dqH {R} : pyfun R :=
  λ args, match args with [q; _; _] => Some q | _ => None end.

Definition oscillator3_dpH {R} : pyfun R :=
  λ args, match args with [_; p; _] => Some p | _ => None end.

(** A callable that raises whatever it is called with. *)
Definition raising {R} : pyfun R := λ _, None.

(** ** Reference schemes and exact values *)

(** The system [dynamics_solve] integrates when it is given the coupled
    pair of a one-dimensional Hamiltonian system as one state [(q, p)]:
    [dq/dt = dpH(q, p)], [dp/dt = -dqH(q, p)]. *)
Definition coupled_field {R} `{Num R} (d_qH d_pH : pyfun R) : pyfun R :=
  λ args,
    match args with
    | [_; Array [q; p]] =>
        dq ← d_pH [Scalar q; Scalar p];
        dp ← d_qH [Scalar q; Scalar p];
        match dq, dp with
        | Scalar a, Scalar b => Some (Array [a; rneg b])
        | _, _ => None
        end
    | _ => None
    end.

(** One step of the classical four-stage scheme from [(tn, sn)]: the fourth
    stage is taken at time [tn + h]. *)
Definition RK4_classical {R} `{Num R} (f : pyfun R) (h tn : R) (sn : value R)
  : option (value R) :=
  k1 ← sc h ⊗ call2 f (sc tn) (Some sn);
  k2 ← sc h ⊗ call2 f (sc tn ⊕ sc lit_half ⊗ sc h)
                       (Some sn ⊕ sc lit_half ⊗ Some k1);
  k3 ← sc h ⊗ call2 f (sc tn ⊕ sc lit_half ⊗ sc h)
                       (Some sn ⊕ sc lit_half ⊗ Some k2);
  k4 ← sc h ⊗ call2 f (sc tn ⊕ sc h) (Some sn ⊕ Some k3);
  Some sn ⊕ sc (rdiv (of_int 1) (of_int 6))
            ⊗ (Some k1 ⊕ sc (of_int 2) ⊗ Some k2
                        ⊕ sc (of_int 2) ⊗ Some k3 ⊕ Some k4).

(** The rational number a finite float stands for. *)
Definition float_to_Q (x : float) : option Q :=
  match Prim2SF x with
  | S754_zero _ => Some 0%Q
  | S754_finite s m e =>
      Some ((if s then - 1 else 1) * inject_Z (Z.pos m) * Qpower 2 e)%Q
  | _ => None
  end.

(** ** One step of each scheme, on states *)

(** What one iteration of each loop computes from the entries at index [n]
    (and the time [tn = T[n]]) to the entries at index [n + 1], with the
    intermediate stages the code names. *)
Section StepRelations.
Context {R : Type} `{Num R}.

#[local] Abbreviation value := (value R).
#[local] Abbreviation pyfun := (pyfun R).

Definition dynamics_Euler_rel (f : pyfun) (h tn : R) (sn sn1 : value) : Prop :=
  Some sn ⊕ sc h ⊗ call2 f (sc tn) (Some sn) = Some sn1.

Definition dynamics_RK2_rel (f : pyfun) (h tn : R) (sn sn1 : value) : Prop :=
  ∃ k1 k2,
    sc h ⊗ call2 f (sc tn) (Some sn) = Some k1 ∧
    sc h ⊗ call2 f (sc tn ⊕ sc lit_half ⊗ sc h)
                   (Some sn ⊕ sc lit_half ⊗ Some k1) = Some k2 ∧
    Some sn ⊕ Some k2 = Some sn1.

Definition dynamics_RK4_rel (f : pyfun) (h tn : R) (sn sn1 : value) : Prop :=
  ∃ k1 k2 k3 k4,
    sc h ⊗ call2 f (sc tn) (Some sn) = Some k1 ∧
    sc h ⊗ call2 f (sc tn ⊕ sc lit_half ⊗ sc h)
                   (Some sn ⊕ sc lit_half ⊗ Some k1) = Some k2 ∧
    sc h ⊗ call2 f (sc tn ⊕ sc lit_half ⊗ sc h)
                   (Some sn ⊕ sc lit_half ⊗ Some k2) = Some k3 ∧
    sc h ⊗ call2 f (sc tn) (Some sn ⊕ Some k3) = Some k4 ∧
    Some sn ⊕ sc (rdiv (of_int 1) (of_int 6))
              ⊗ (Some k1 ⊕ sc (of_int 2) ⊗ Some k2
                          ⊕ sc (of_int 2) ⊗ Some k3 ⊕ Some k4)
    = Some sn1.

Definition hamiltonian_Euler_rel (d_qH d_pH : pyfun) (h : R)
    (qn pn qn1 pn1 : value) : Prop :=
  Some qn ⊕ sc h ⊗ call2 d_pH (Some qn) (Some pn) = Some qn1 ∧
  Some pn ⊖ sc h ⊗ call2 d_qH (Some qn) (Some pn) = Some pn1.

Definition hamiltonian_RK2_rel (d_qH d_pH : pyfun) (h : R)
    (qn pn qn1 pn1 : value) : Prop :=
  ∃ k1_Q k1_P k2_Q k2_P,
    sc h ⊗ call2 d_pH (Some qn) (Some pn) = Some k1_Q ∧
    sc (rneg h) ⊗ call2 d_qH (Some qn) (Some pn) = Some k1_P ∧
    sc h ⊗ call2 d_pH (Some qn ⊕ Some k1_Q ⊗ sc lit_half)
                      (Some pn ⊕ Some k1_Q ⊗ sc lit_half) = Some k2_Q ∧
    sc (rneg h) ⊗ call2 d_qH (Some qn ⊕ Some k1_P ⊗ sc lit_half)
                             (Some pn ⊕ sc lit_half ⊗ Some k1_P) = Some k2_P ∧
    Some qn ⊕ Some k2_Q = Some qn1 ∧
    Some pn ⊕ Some k2_P = Some pn1.

Definition hamiltonian_RK4_rel (d_qH d_pH : pyfun) (h : R)
    (qn pn qn1 pn1 : value) : Prop :=
  ∃ k1_Q k1_P k2_Q k2_P k3_Q k3_P k4_Q k4_P,
    sc h ⊗ call2 d_pH (Some qn) (Some pn) = Some k1_Q ∧
    sc (rneg h) ⊗ call2 d_qH (Some qn) (Some pn) = Some k1_P ∧
    sc h ⊗ call2 d_pH (Some qn ⊕ Some k1_Q ⊗ sc lit_half)
                      (Some pn ⊕ Some k1_Q ⊗ sc lit_half) = Some k2_Q ∧
    sc (rneg h) ⊗ call2 d_qH (Some qn ⊕ Some k1_P ⊗ sc lit_half)
                             (Some pn ⊕ Some k1_P ⊗ sc lit_half) = Some k2_P ∧
    sc h ⊗ call2 d_pH (Some qn ⊕ Some k2_Q ⊗ sc lit_half)
                      (Some pn ⊕ Some k2_Q ⊗ sc lit_half) = Some k3_Q ∧
    sc (rneg h) ⊗ call2 d_qH (Some qn ⊕ Some k2_P ⊗ sc lit_half)
                             (Some pn ⊕ Some k2_P ⊗ sc lit_half) = Some k3_P ∧
    sc h ⊗ call2 d_pH (Some qn ⊕ sc h) (Some pn ⊕ Some k3_Q) = Some k4_Q ∧
    sc (rneg h) ⊗ call2 d_qH (Some qn ⊕ sc h) (Some pn ⊕ Some k3_P)
    = Some k4_P ∧
    Some qn ⊕ sc (rdiv (of_int 1) (of_int 6))
              ⊗ (Some k1_Q ⊕ sc (of_int 2) ⊗ Some k2_Q
                            ⊕ sc (of_int 2) ⊗ Some k3_Q ⊕ Some k4_Q)
    = Some qn1 ∧
    Some pn ⊕ sc (rdiv (of_int 1) (of_int 6))
              ⊗ (Some k1_P ⊕ sc (of_int 2) ⊗ Some k2_P
                            ⊕ sc (of_int 2) ⊗ Some k3_P ⊕ Some k4_P)
    = Some pn1.

Definition hamiltonian_SE_rel (d_qH d_pH : pyfun) (h tn : R)
    (qn pn qn1 pn1 : value) : Prop :=
  Some qn ⊕ sc h ⊗ call3 d_pH (Some qn) (Some pn) (sc tn) = Some qn1 ∧
  Some pn ⊖ sc h ⊗ call3 d_qH (Some qn1) (Some pn) (sc tn) = Some pn1.

Definition hamiltonian_SV_rel (d_qH d_pH : pyfun) (h tn : R)
    (qn pn qn1 pn1 : value) : Prop :=
  ∃ k1,
    Some pn ⊖ sc h ⊗ sc lit_half
              ⊗ call3 d_qH (Some qn) (Some pn) (sc tn) = Some k1 ∧
    Some qn ⊕ sc h ⊗ call3 d_pH (Some qn) (Some k1) (sc tn) = Some qn1 ∧
    Some k1 ⊖ sc h ⊗ sc lit_half
              ⊗ call3 d_qH (Some qn1) (Some pn) (sc tn) = Some pn1.

(** The step of a scheme of [dynamics_solve], by its name; no step for
    another name. *)
Definition dynamics_rel (method : string) (f : pyfun) (h tn : R)
    (sn sn1 : value) : Prop :=
  if String.eqb method "Euler" then dynamics_Euler_rel f h tn sn sn1
  else if String.eqb method "RK2" then dynamics_RK2_rel f h tn sn sn1
  else if String.eqb method "RK4" then dynamics_RK4_rel f h tn sn sn1
  else False.

Definition hamiltonian_rel (method : string) (d_qH d_pH : pyfun) (h tn : R)
    (qn pn qn1 pn1 : value) : Prop :=
  if String.eqb method "Euler"
  then hamiltonian_Euler_rel d_qH d_pH h qn pn qn1 pn1
  else if String.eqb method "RK2"
  then hamiltonian_RK2_rel d_qH d_pH h qn pn qn1 pn1
  else if String.eqb method "RK4"
  then hamiltonian_RK4_rel d_qH d_pH h qn pn qn1 pn1
  else if String.eqb method "SE"
  then hamiltonian_SE_rel d_qH d_pH h tn qn pn qn1 pn1
  else if String.eqb method "SV"
  then hamiltonian_SV_rel d_qH d_pH h tn qn pn qn1 pn1
  else False.

(** A Python function of exactly two parameters raises [TypeError] when
    it is called with three arguments, and one of exactly three parameters
    when it is called with two. *)
Definition rejects_three_arguments (g : pyfun) : Prop :=
  ∀ q p t, g [q; p; t] = None.

Definition rejects_two_arguments (g : pyfun) : Prop :=
  ∀ q p, g [q; p] = None.

(** Derivative functions of an autonomous system: the result does not
    depend on the time argument.  (A function of exactly two parameters
    ignores the time of a three-argument call in raising whatever it is.) *)
Definition autonomous (f : pyfun) : Prop :=
  ∀ t t' s, f [Scalar t; s] = f [Scalar t'; s].

Definition ignores_time (g : pyfun) : Prop :=
  ∀ q p t t', g [q; p; Scalar t] = g [q; p; Scalar t'].

(** [T[n]] of the time grid. *)
Definition time_at (t_0 h : R) (n : nat) : R :=
  radd t_0 (rmul (of_int (Z.of_nat n)) h).

End StepRelations.

(** ** Shapes and broadcasting *)

Section Facts.
Context {R : Type} `{Num R}.

#[local] Abbreviation value := (value R).
#[local] Abbreviation pyfun := (pyfun R).

Lemma broadcast_same (op : R → R → R) (a b : value) sh :
  shape_of a = sh → shape_of b = sh →
  broadcast op a b = Some (vzip op a b).
Proof.
  intros Ha Hb. destruct a as [x|xs], b as [y|ys]; simpl in *; try congruence.
  assert (length xs = length ys) as -> by congruence.
  by rewrite Nat.eqb_refl.
Qed.

Lemma broadcast_scalar_l (op : R → R → R) x (b : value) :
  broadcast op (Scalar x) b = Some (vzip op (Scalar x) b).
Proof. by destruct b. Qed.

Lemma broadcast_scalar_r (op : R → R → R) (a : value) y :
  broadcast op a (Scalar y) = Some (vzip op a (Scalar y)).
Proof. by destruct a. Qed.

Lemma vzip_scalars (op : R → R → R) x y :
  vzip op (Scalar x) (Scalar y) = Scalar (op x y).
Proof. done. Qed.

Lemma shape_vzip_same (op : R → R → R) (a b : value) sh :
  shape_of a = sh → shape_of b = sh → shape_of (vzip op a b) = sh.
Proof.
  intros Ha Hb. destruct a as [x|xs], b as [y|ys]; simpl in *; try congruence.
  rewrite length_zip_with. subst sh. injection Hb as Hb. f_equal. lia.
Qed.

Lemma shape_vzip_l (op : R → R → R) x (b : value) sh :
  shape_of b = sh → shape_of (vzip op (Scalar x) b) = sh.
Proof. intros <-. destruct b; simpl; by rewrite ?length_map. Qed.

Lemma shape_vzip_r (op : R → R → R) (a : value) y sh :
  shape_of a = sh → shape_of (vzip op a (Scalar y)) = sh.
Proof. intros <-. destruct a; simpl; by rewrite ?length_map. Qed.

Lemma assign_same (old v : value) :
  shape_of v = shape_of old → assign old v = Some v.
Proof.
  destruct old as [x|row], v as [y|ys]; simpl; try congruence.
  intros [= ->]. by rewrite Nat.eqb_refl.
Qed.

Lemma shape_zero_state D : shape_of (zero_state D) = row_shape D.
Proof.
  unfold zero_state, row_shape. destruct (D =? 1)%Z; simpl; [done|].
  by rewrite length_replicate.
Qed.

(** *** Buffers *)

Lemma wf_lookup sh N (S : list value) n :
  wf sh N S → n ≤ N → ∃ v, S !! n = Some v ∧ shape_of v = sh.
Proof.
  intros [Hlen Hall] Hn.
  destruct (lookup_lt_is_Some_2 S n) as [v Hv]; [lia|].
  exists v. split; [done|].
  exact (Forall_lookup_1 (λ v, shape_of v = sh) S n v Hall Hv).
Qed.

Lemma wf_insert sh N (S : list value) n v :
  wf sh N S → shape_of v = sh → wf sh N (<[n := v]> S).
Proof.
  intros [Hlen Hall] Hv. split; [by rewrite length_insert|].
  by apply Forall_insert.
Qed.

Lemma setitem_ok sh N (S : list value) n v :
  wf sh N S → n ≤ N → shape_of v = sh →
  setitem S n v = Some (<[n := v]> S).
Proof.
  intros HS Hn Hv. destruct (wf_lookup sh N S n HS Hn) as (old & Hold & Hsh).
  unfold setitem. rewrite Hold. simpl.
  rewrite assign_same; [done | congruence].
Qed.

Lemma store_ok sh N (S : list value) n v :
  wf sh N S → n ≤ N → shape_of v = sh →
  store S n (Some v) = Some (<[n := v]> S).
Proof. intros. simpl. by eapply setitem_ok. Qed.

Lemma buffer_ok D N :
  (1 ≤ D)%Z →
  buffer D N = Some (replicate (N + 1) (zero_state D))
  ∧ wf (row_shape D) N (replicate (N + 1) (zero_state D)).
Proof.
  intros HD. split.
  - unfold buffer, zero_state, np_zeros1, np_zeros2.
    destruct (D =? 1)%Z eqn:E1, (1 <? D)%Z eqn:E2; try done; lia.
  - split; [by rewrite length_replicate|].
    apply Forall_replicate, shape_zero_state.
Qed.

(** *** The time grid *)

Lemma length_time_grid t_0 h N : length (time_grid t_0 h N) = N + 1.
Proof. unfold time_grid. by rewrite length_map, length_seq. Qed.

Lemma lookup_time_grid t_0 h N n :
  n ≤ N →
  time_grid t_0 h N !! n = Some (radd t_0 (rmul (of_int (Z.of_nat n)) h)).
Proof.
  intros Hn. unfold time_grid. rewrite list_lookup_fmap.
  rewrite lookup_seq_lt by lia. done.
Qed.

Lemma getT_time_grid t_0 h N n :
  n ≤ N →
  getT (time_grid t_0 h N) n
  = Some (Scalar (radd t_0 (rmul (of_int (Z.of_nat n)) h))).
Proof. intros Hn. unfold getT. by rewrite lookup_time_grid. Qed.


(** *** Calls of well-shaped functions *)

Lemma field_call sh (f : pyfun) t s :
  field_ok sh f → shape_of s = sh →
  f [Scalar t; s] = Some (returned f [Scalar t; s]).
Proof.
  intros Hf Hs. destruct (Hf t s Hs) as (v & Hv & _).
  unfold returned. by rewrite Hv.
Qed.

Lemma shape_field_call sh (f : pyfun) t s :
  field_ok sh f → shape_of s = sh →
  shape_of (returned f [Scalar t; s]) = sh.
Proof.
  intros Hf Hs. destruct (Hf t s Hs) as (v & Hv & Hsh).
  unfold returned. by rewrite Hv.
Qed.

Lemma deriv_call2 sh (g : pyfun) q p :
  deriv_ok2 sh g → shape_of q = sh → shape_of p = sh →
  g [q; p] = Some (returned g [q; p]).
Proof.
  intros Hg Hq Hp. destruct (Hg q p Hq Hp) as (v & Hv & _).
  unfold returned. by rewrite Hv.
Qed.

Lemma shape_deriv_call2 sh (g : pyfun) q p :
  deriv_ok2 sh g → shape_of q = sh → shape_of p = sh →
  shape_of (returned g [q; p]) = sh.
Proof.
  intros Hg Hq Hp. destruct (Hg q p Hq Hp) as (v & Hv & Hsh).
  unfold returned. by rewrite Hv.
Qed.

Lemma deriv_call3 sh (g : pyfun) q p t :
  deriv_ok3 sh g → shape_of q = sh → shape_of p = sh →
  g [q; p; Scalar t] = Some (returned g [q; p; Scalar t]).
Proof.
  intros Hg Hq Hp. destruct (Hg q p t Hq Hp) as (v & Hv & _).
  unfold returned. by rewrite Hv.
Qed.

Lemma shape_deriv_call3 sh (g : pyfun) q p t :
  deriv_ok3 sh g → shape_of q = sh → shape_of p = sh →
  shape_of (returned g [q; p; Scalar t]) = sh.
Proof.
  intros Hg Hq Hp. destruct (Hg q p t Hq Hp) as (v & Hv & Hsh).
  unfold returned. by rewrite Hv.
Qed.

(** *** Loops *)

Lemma for_each_seq_inv {St} (I : nat → St → Prop)
    (body : nat → St → option St) count :
  ∀ start st,
    I start st →
    (∀ n st, start ≤ n < start + count → I n st →
       ∃ st', body n st = Some st' ∧ I (n + 1) st') →
    ∃ st', for_each (seq start count) body st = Some st'
           ∧ I (start + count) st'.
Proof.
  induction count as [|count IH]; intros start st HI Hstep; simpl.
  - exists st. by rewrite Nat.add_0_r.
  - destruct (Hstep start st) as (st1 & -> & HI1); [lia|done|]. simpl.
    rewrite Nat.add_1_r in HI1.
    destruct (IH (Datatypes.S start) st1 HI1) as (st' & Hrun & HI').
    { intros n st2 Hn. apply Hstep. lia. }
    exists st'. split; [done|].
    by replace (start + Datatypes.S count) with (Datatypes.S start + count) by lia.
Qed.

(** A loop whose body stores one well-shaped state at index [n + 1]
    leaves a well-shaped buffer, keeps entry 0, and relates every entry to
    the next one as the body does. *)
Lemma dynamics_loop sh N (body : nat → list value → option (list value))
    (Rel : nat → value → value → Prop) (S0 : list value) :
  wf sh N S0 →
  (∀ n S sn, n < N → wf sh N S → S !! n = Some sn → shape_of sn = sh →
     ∃ v, body n S = Some (<[n + 1 := v]> S) ∧ shape_of v = sh ∧ Rel n sn v) →
  ∃ S, for_range N body S0 = Some S ∧ wf sh N S ∧ S !! 0 = S0 !! 0 ∧
       ∀ n, n < N →
         ∃ sn sn1, S !! n = Some sn ∧ S !! (n + 1) = Some sn1 ∧ Rel n sn sn1.
Proof.
  intros H0 Hbody.
  destruct (for_each_seq_inv
    (λ k S, wf sh N S ∧ S !! 0 = S0 !! 0 ∧
            ∀ n, n < k → ∃ sn sn1,
              S !! n = Some sn ∧ S !! (n + 1) = Some sn1 ∧ Rel n sn sn1)
    body N 0 S0) as (S & Hrun & HS & HS0 & Hrel).
  - split; [done|]. split; [done|]. intros n Hn. lia.
  - intros n S [_ Hn] (HS & HS0 & Hrel).
    destruct (wf_lookup sh N S n HS) as (sn & Hsn & Hshn); [lia|].
    destruct (Hbody n S sn Hn HS Hsn Hshn) as (v & -> & Hv & Hstep).
    eexists. split; [done|]. split; [by apply wf_insert|].
    split; [rewrite list_lookup_insert_ne by lia; done|].
    intros k Hk. destruct (decide (k = n)) as [->|Hne].
    + exists sn, v. rewrite list_lookup_insert_ne by lia.
      rewrite list_lookup_insert_eq by (destruct HS; lia). done.
    + destruct (Hrel k) as (sk & sk1 & Hk0 & Hk1 & HR); [lia|].
      exists sk, sk1. by rewrite !list_lookup_insert_ne by lia.
  - exists S. done.
Qed.

Lemma hamiltonian_loop sh N (body : nat → phase R → option (phase R))
    (Rel : nat → value → value → value → value → Prop)
    (Q0 P0 : list value) :
  wf sh N Q0 → wf sh N P0 →
  (∀ n Q P qn pn, n < N → wf sh N Q → wf sh N P →
     Q !! n = Some qn → P !! n = Some pn →
     shape_of qn = sh → shape_of pn = sh →
     ∃ qv pv, body n (Q, P) = Some (<[n + 1 := qv]> Q, <[n + 1 := pv]> P)
              ∧ shape_of qv = sh ∧ shape_of pv = sh ∧ Rel n qn pn qv pv) →
  ∃ Q P, for_range N body (Q0, P0) = Some (Q, P)
         ∧ wf sh N Q ∧ wf sh N P ∧ Q !! 0 = Q0 !! 0 ∧ P !! 0 = P0 !! 0 ∧
         ∀ n, n < N →
           ∃ qn pn qn1 pn1,
             Q !! n = Some qn ∧ P !! n = Some pn ∧
             Q !! (n + 1) = Some qn1 ∧ P !! (n + 1) = Some pn1 ∧
             Rel n qn pn qn1 pn1.
Proof.
  intros HQ0 HP0 Hbody.
  destruct (for_each_seq_inv
    (λ k (QP : phase R),
       wf sh N QP.1 ∧ wf sh N QP.2 ∧
       QP.1 !! 0 = Q0 !! 0 ∧ QP.2 !! 0 = P0 !! 0 ∧
       ∀ n, n < k → ∃ qn pn qn1 pn1,
         QP.1 !! n = Some qn ∧ QP.2 !! n = Some pn ∧
         QP.1 !! (n + 1) = Some qn1 ∧ QP.2 !! (n + 1) = Some pn1 ∧
         Rel n qn pn qn1 pn1)
    body N 0 (Q0, P0)) as ([Q P] & Hrun & HQ & HP & HQ0' & HP0' & Hrel).
  - simpl. repeat (split; [done|]). intros n Hn. lia.
  - intros n [Q P] [_ Hn] (HQ & HP & HQz & HPz & Hrel). simpl in *.
    destruct (wf_lookup sh N Q n HQ) as (qn & Hqn & Hshq); [lia|].
    destruct (wf_lookup sh N P n HP) as (pn & Hpn & Hshp); [lia|].
    destruct (Hbody n Q P qn pn Hn HQ HP Hqn Hpn Hshq Hshp)
      as (qv & pv & -> & Hqv & Hpv & Hstep).
    eexists. split; [done|]. simpl.
    split; [by apply wf_insert|]. split; [by apply wf_insert|].
    split; [rewrite list_lookup_insert_ne by lia; done|].
    split; [rewrite list_lookup_insert_ne by lia; done|].
    intros k Hk. destruct (decide (k = n)) as [->|Hne].
    + exists qn, pn, qv, pv. rewrite !list_lookup_insert_ne by lia.
      rewrite !list_lookup_insert_eq by (destruct HQ, HP; lia). done.
    + destruct (Hrel k) as (qk & pk & qk1 & pk1 & ? & ? & ? & ? & ?); [lia|].
      exists qk, pk, qk1, pk1. by rewrite !list_lookup_insert_ne by lia.
  - exists Q, P. done.
Qed.

End Facts.

(** ** One iteration of each scheme *)

Ltac shape_tac :=
  lazymatch goal with
  | |- shape_of (vzip _ (Scalar _) _) = _ => apply shape_vzip_l; shape_tac
  | |- shape_of (vzip _ _ (Scalar _)) = _ => apply shape_vzip_r; shape_tac
  | |- shape_of (vzip _ _ _) = _ => apply shape_vzip_same; shape_tac
  | |- shape_of (returned _ _) = _ =>
      first [ eapply shape_field_call; [eassumption | shape_tac]
            | eapply shape_deriv_call2; [eassumption | shape_tac | shape_tac]
            | eapply shape_deriv_call3; [eassumption | shape_tac | shape_tac] ]
  | |- _ => eassumption
  end.

(** Evaluates the body of a loop on well-shaped buffers: reads, calls,
    broadcasts and stores, in the order the expressions nest. *)
Ltac eval_py sh N :=
  repeat first
    [ progress cbn [binop sc call2 call3 mbind option_bind
                    fmap option_fmap option_map fst snd]
    | match goal with
      | Hl : ?l !! ?i = Some _ |- context [?l !! ?i] => rewrite Hl
      end
    | rewrite list_lookup_insert_ne by lia
    | rewrite list_lookup_insert_eq
        by (match goal with Hw : wf _ _ ?l |- _ < length ?l =>
              destruct Hw; lia end)
    | rewrite getT_time_grid by lia
    | match goal with
      | |- context [vzip ?op (Scalar ?x) (Scalar ?y)] =>
          change (vzip op (Scalar x) (Scalar y)) with (Scalar (op x y))
      end
    | rewrite broadcast_scalar_l
    | rewrite broadcast_scalar_r
    | rewrite (broadcast_same _ _ _ sh) by shape_tac
    | rewrite (field_call sh) by shape_tac
    | rewrite (deriv_call2 sh) by shape_tac
    | rewrite (deriv_call3 sh) by shape_tac
    | rewrite (store_ok sh N) by (try lia; shape_tac) ].

Section Steps.
Context {R : Type} `{Num R}.

#[local] Abbreviation value := (value R).
#[local] Abbreviation pyfun := (pyfun R).

Variables (sh : shape) (N : nat) (t_0 h : R).

Let T := time_grid t_0 h N.

Lemma dynamics_Euler_step (f : pyfun) n (S : list value) sn :
  field_ok sh f → n < N → wf sh N S → S !! n = Some sn → shape_of sn = sh →
  ∃ v, dynamics_Euler f h T n S = Some (<[n + 1 := v]> S)
       ∧ shape_of v = sh
       ∧ Some sn ⊕ sc h ⊗ call2 f (getT T n) (Some sn) = Some v.
Proof.
  intros Hf Hn HS Hsn Hsh. unfold dynamics_Euler, T.
  eexists. split; [eval_py sh N; reflexivity|].
  split; [shape_tac|]. eval_py sh N. reflexivity.
Qed.

Lemma dynamics_RK2_step (f : pyfun) n (S : list value) sn :
  field_ok sh f → n < N → wf sh N S → S !! n = Some sn → shape_of sn = sh →
  ∃ v, dynamics_RK2 f h T n S = Some (<[n + 1 := v]> S)
       ∧ shape_of v = sh
       ∧ ∃ k1 k2,
           sc h ⊗ call2 f (getT T n) (Some sn) = Some k1 ∧
           sc h ⊗ call2 f (getT T n ⊕ sc lit_half ⊗ sc h)
                          (Some sn ⊕ sc lit_half ⊗ Some k1) = Some k2 ∧
           Some sn ⊕ Some k2 = Some v.
Proof.
  intros Hf Hn HS Hsn Hsh. unfold dynamics_RK2, T.
  eexists. split; [eval_py sh N; reflexivity|].
  split; [shape_tac|]. eexists _, _.
  split; [eval_py sh N; reflexivity|].
  split; [eval_py sh N; reflexivity | eval_py sh N; reflexivity].
Qed.

(** The fourth stage calls [f] at time [T[n]]. *)
Lemma dynamics_RK4_step (f : pyfun) n (S : list value) sn :
  field_ok sh f → n < N → wf sh N S → S !! n = Some sn → shape_of sn = sh →
  ∃ v, dynamics_RK4 f h T n S = Some (<[n + 1 := v]> S)
       ∧ shape_of v = sh
       ∧ ∃ k1 k2 k3 k4,
           sc h ⊗ call2 f (getT T n) (Some sn) = Some k1 ∧
           sc h ⊗ call2 f (getT T n ⊕ sc lit_half ⊗ sc h)
                          (Some sn ⊕ sc lit_half ⊗ Some k1) = Some k2 ∧
           sc h ⊗ call2 f (getT T n ⊕ sc lit_half ⊗ sc h)
                          (Some sn ⊕ sc lit_half ⊗ Some k2) = Some k3 ∧
           sc h ⊗ call2 f (getT T n) (Some sn ⊕ Some k3) = Some k4 ∧
           Some sn ⊕ sc (rdiv (of_int 1) (of_int 6))
                     ⊗ (Some k1 ⊕ sc (of_int 2) ⊗ Some k2
                                 ⊕ sc (of_int 2) ⊗ Some k3 ⊕ Some k4)
           = Some v.
Proof.
  intros Hf Hn HS Hsn Hsh. unfold dynamics_RK4, T.
  eexists. split; [eval_py sh N; reflexivity|].
  split; [shape_tac|]. eexists _, _, _, _.
  split; [eval_py sh N; reflexivity|].
  split; [eval_py sh N; reflexivity|].
  split; [eval_py sh N; reflexivity|].
  split; [eval_py sh N; reflexivity | eval_py sh N; reflexivity].
Qed.

Lemma hamiltonian_Euler_step (d_qH d_pH : pyfun) n (Q P : list value) qn pn :
  deriv_ok2 sh d_qH → deriv_ok2 sh d_pH →
  n < N → wf sh N Q → wf sh N P →
  Q !! n = Some qn → P !! n = Some pn →
  shape_of qn = sh → shape_of pn = sh →
  ∃ qv pv,
    hamiltonian_Euler d_qH d_pH h n (Q, P)
    = Some (<[n + 1 := qv]> Q, <[n + 1 := pv]> P)
    ∧ shape_of qv = sh ∧ shape_of pv = sh
    ∧ Some qn ⊕ sc h ⊗ call2 d_pH (Some qn) (Some pn) = Some qv
    ∧ Some pn ⊖ sc h ⊗ call2 d_qH (Some qn) (Some pn) = Some pv.
Proof.
  intros Hdq Hdp Hn HQ HP Hqn Hpn Hshq Hshp. unfold hamiltonian_Euler.
  eexists _, _. split; [eval_py sh N; reflexivity|].
  split; [shape_tac|]. split; [shape_tac|].
  split; [eval_py sh N; reflexivity | eval_py sh N; reflexivity].
Qed.

Lemma hamiltonian_RK2_step (d_qH d_pH : pyfun) n (Q P : list value) qn pn :
  deriv_ok2 sh d_qH → deriv_ok2 sh d_pH →
  n < N → wf sh N Q → wf sh N P →
  Q !! n = Some qn → P !! n = Some pn →
  shape_of qn = sh → shape_of pn = sh →
  ∃ qv pv,
    hamiltonian_RK2 d_qH d_pH h n (Q, P)
    = Some (<[n + 1 := qv]> Q, <[n + 1 := pv]> P)
    ∧ shape_of qv = sh ∧ shape_of pv = sh ∧ True.
Proof.
  intros Hdq Hdp Hn HQ HP Hqn Hpn Hshq Hshp. unfold hamiltonian_RK2.
  eexists _, _. split; [eval_py sh N; reflexivity|].
  split; [shape_tac|]. split; [shape_tac|]. done.
Qed.

Lemma hamiltonian_RK4_step (d_qH d_pH : pyfun) n (Q P : list value) qn pn :
  deriv_ok2 sh d_qH → deriv_ok2 sh d_pH →
  n < N → wf sh N Q → wf sh N P →
  Q !! n = Some qn → P !! n = Some pn →
  shape_of qn = sh → shape_of pn = sh →
  ∃ qv pv,
    hamiltonian_RK4 d_qH d_pH h n (Q, P)
    = Some (<[n + 1 := qv]> Q, <[n + 1 := pv]> P)
    ∧ shape_of qv = sh ∧ shape_of pv = sh ∧ True.
Proof.
  intros Hdq Hdp Hn HQ HP Hqn Hpn Hshq Hshp. unfold hamiltonian_RK4.
  eexists _, _. split; [eval_py sh N; reflexivity|].
  split; [shape_tac|]. split; [shape_tac|]. done.
Qed.

(** The momentum update reads the position stored just before. *)
Lemma hamiltonian_SE_step (d_qH d_pH : pyfun) n (Q P : list value) qn pn :
  deriv_ok3 sh d_qH → deriv_ok3 sh d_pH →
  n < N → wf sh N Q → wf sh N P →
  Q !! n = Some qn → P !! n = Some pn →
  shape_of qn = sh → shape_of pn = sh →
  ∃ qv pv,
    hamiltonian_SE d_qH d_pH h T n (Q, P)
    = Some (<[n + 1 := qv]> Q, <[n + 1 := pv]> P)
    ∧ shape_of qv = sh ∧ shape_of pv = sh
    ∧ Some qn ⊕ sc h ⊗ call3 d_pH (Some qn) (Some pn) (getT T n) = Some qv
    ∧ Some pn ⊖ sc h ⊗ call3 d_qH (Some qv) (Some pn) (getT T n) = Some pv.
Proof.
  intros Hdq Hdp Hn HQ HP Hqn Hpn Hshq Hshp. unfold hamiltonian_SE, T.
  eexists _, _. split; [eval_py sh N; reflexivity|].
  split; [shape_tac|]. split; [shape_tac|].
  split; [eval_py sh N; reflexivity | eval_py sh N; reflexivity].
Qed.

Lemma hamiltonian_SV_step (d_qH d_pH : pyfun) n (Q P : list value) qn pn :
  deriv_ok3 sh d_qH → deriv_ok3 sh d_pH →
  n < N → wf sh N Q → wf sh N P →
  Q !! n = Some qn → P !! n = Some pn →
  shape_of qn = sh → shape_of pn = sh →
  ∃ qv pv,
    hamiltonian_SV d_qH d_pH h T n (Q, P)
    = Some (<[n + 1 := qv]> Q, <[n + 1 := pv]> P)
    ∧ shape_of qv = sh ∧ shape_of pv = sh
    ∧ ∃ k1,
        Some pn ⊖ sc h ⊗ sc lit_half
                  ⊗ call3 d_qH (Some qn) (Some pn) (getT T n) = Some k1 ∧
        Some qn ⊕ sc h ⊗ call3 d_pH (Some qn) (Some k1) (getT T n) = Some qv ∧
        Some k1 ⊖ sc h ⊗ sc lit_half
                  ⊗ call3 d_qH (Some qv) (Some pn) (getT T n) = Some pv.
Proof.
  intros Hdq Hdp Hn HQ HP Hqn Hpn Hshq Hshp. unfold hamiltonian_SV, T.
  eexists _, _. split; [eval_py sh N; reflexivity|].
  split; [shape_tac|]. split; [shape_tac|]. eexists.
  split; [eval_py sh N; reflexivity|].
  split; [eval_py sh N; reflexivity | eval_py sh N; reflexivity].
Qed.

(** *** The loops *)

Lemma dynamics_Euler_loop (f : pyfun) (S0 : list value) :
  field_ok sh f → wf sh N S0 →
  ∃ S, for_range N (dynamics_Euler f h T) S0 = Some S
       ∧ wf sh N S ∧ S !! 0 = S0 !! 0.
Proof.
  intros Hf H0.
  destruct (dynamics_loop sh N (dynamics_Euler f h T) (λ _ _ _, True) S0 H0)
    as (S & ? & ? & ? & _); [|by exists S].
  intros n S sn Hn HS Hsn Hsh.
  destruct (dynamics_Euler_step f n S sn) as (v & ? & ? & _); eauto.
Qed.

Lemma dynamics_RK2_loop (f : pyfun) (S0 : list value) :
  field_ok sh f → wf sh N S0 →
  ∃ S, for_range N (dynamics_RK2 f h T) S0 = Some S
       ∧ wf sh N S ∧ S !! 0 = S0 !! 0.
Proof.
  intros Hf H0.
  destruct (dynamics_loop sh N (dynamics_RK2 f h T) (λ _ _ _, True) S0 H0)
    as (S & ? & ? & ? & _); [|by exists S].
  intros n S sn Hn HS Hsn Hsh.
  destruct (dynamics_RK2_step f n S sn) as (v & ? & ? & _); eauto.
Qed.

Lemma dynamics_RK4_loop (f : pyfun) (S0 : list value) :
  field_ok sh f → wf sh N S0 →
  ∃ S, for_range N (dynamics_RK4 f h T) S0 = Some S
       ∧ wf sh N S ∧ S !! 0 = S0 !! 0.
Proof.
  intros Hf H0.
  destruct (dynamics_loop sh N (dynamics_RK4 f h T) (λ _ _ _, True) S0 H0)
    as (S & ? & ? & ? & _); [|by exists S].
  intros n S sn Hn HS Hsn Hsh.
  destruct (dynamics_RK4_step f n S sn) as (v & ? & ? & _); eauto.
Qed.

Lemma hamiltonian_Euler_loop (d_qH d_pH : pyfun) (Q0 P0 : list value) :
  deriv_ok2 sh d_qH → deriv_ok2 sh d_pH → wf sh N Q0 → wf sh N P0 →
  ∃ Q P, for_range N (hamiltonian_Euler d_qH d_pH h) (Q0, P0) = Some (Q, P)
         ∧ wf sh N Q ∧ wf sh N P ∧ Q !! 0 = Q0 !! 0 ∧ P !! 0 = P0 !! 0.
Proof.
  intros Hdq Hdp HQ0 HP0.
  destruct (hamiltonian_loop sh N (hamiltonian_Euler d_qH d_pH h)
              (λ _ _ _ _ _, True) Q0 P0 HQ0 HP0)
    as (Q & P & ? & ? & ? & ? & ? & _); [|by exists Q, P].
  intros n Q P qn pn Hn HQ HP Hqn Hpn Hshq Hshp.
  destruct (hamiltonian_Euler_step d_qH d_pH n Q P qn pn)
    as (qv & pv & ? & ? & ? & _); eauto 10.
Qed.

Lemma hamiltonian_RK2_loop (d_qH d_pH : pyfun) (Q0 P0 : list value) :
  deriv_ok2 sh d_qH → deriv_ok2 sh d_pH → wf sh N Q0 → wf sh N P0 →
  ∃ Q P, for_range N (hamiltonian_RK2 d_qH d_pH h) (Q0, P0) = Some (Q, P)
         ∧ wf sh N Q ∧ wf sh N P ∧ Q !! 0 = Q0 !! 0 ∧ P !! 0 = P0 !! 0.
Proof.
  intros Hdq Hdp HQ0 HP0.
  destruct (hamiltonian_loop sh N (hamiltonian_RK2 d_qH d_pH h)
              (λ _ _ _ _ _, True) Q0 P0 HQ0 HP0)
    as (Q & P & ? & ? & ? & ? & ? & _); [|by exists Q, P].
  intros n Q P qn pn Hn HQ HP Hqn Hpn Hshq Hshp.
  by apply (hamiltonian_RK2_step d_qH d_pH n Q P qn pn).
Qed.

Lemma hamiltonian_RK4_loop (d_qH d_pH : pyfun) (Q0 P0 : list value) :
  deriv_ok2 sh d_qH → deriv_ok2 sh d_pH → wf sh N Q0 → wf sh N P0 →
  ∃ Q P, for_range N (hamiltonian_RK4 d_qH d_pH h) (Q0, P0) = Some (Q, P)
         ∧ wf sh N Q ∧ wf sh N P ∧ Q !! 0 = Q0 !! 0 ∧ P !! 0 = P0 !! 0.
Proof.
  intros Hdq Hdp HQ0 HP0.
  destruct (hamiltonian_loop sh N (hamiltonian_RK4 d_qH d_pH h)
              (λ _ _ _ _ _, True) Q0 P0 HQ0 HP0)
    as (Q & P & ? & ? & ? & ? & ? & _); [|by exists Q, P].
  intros n Q P qn pn Hn HQ HP Hqn Hpn Hshq Hshp.
  by apply (hamiltonian_RK4_step d_qH d_pH n Q P qn pn).
Qed.

Lemma hamiltonian_SE_loop (d_qH d_pH : pyfun) (Q0 P0 : list value) :
  deriv_ok3 sh d_qH → deriv_ok3 sh d_pH → wf sh N Q0 → wf sh N P0 →
  ∃ Q P, for_range N (hamiltonian_SE d_qH d_pH h T) (Q0, P0) = Some (Q, P)
         ∧ wf sh N Q ∧ wf sh N P ∧ Q !! 0 = Q0 !! 0 ∧ P !! 0 = P0 !! 0 ∧
         ∀ n, n < N →
           ∃ qn pn qn1 pn1,
             Q !! n = Some qn ∧ P !! n = Some pn ∧
             Q !! (n + 1) = Some qn1 ∧ P !! (n + 1) = Some pn1 ∧
             Some qn ⊕ sc h ⊗ call3 d_pH (Some qn) (Some pn) (getT T n)
             = Some qn1 ∧
             Some pn ⊖ sc h ⊗ call3 d_qH (Some qn1) (Some pn) (getT T n)
             = Some pn1.
Proof.
  intros Hdq Hdp HQ0 HP0.
  apply (hamiltonian_loop sh N (hamiltonian_SE d_qH d_pH h T)
           (λ n qn pn qn1 pn1,
              Some qn ⊕ sc h ⊗ call3 d_pH (Some qn) (Some pn) (getT T n)
              = Some qn1 ∧
              Some pn ⊖ sc h ⊗ call3 d_qH (Some qn1) (Some pn) (getT T n)
              = Some pn1) Q0 P0 HQ0 HP0).
  intros n Q P qn pn Hn HQ HP Hqn Hpn Hshq Hshp.
  by apply (hamiltonian_SE_step d_qH d_pH n Q P qn pn).
Qed.

Lemma hamiltonian_SV_loop (d_qH d_pH : pyfun) (Q0 P0 : list value) :
  deriv_ok3 sh d_qH → deriv_ok3 sh d_pH → wf sh N Q0 → wf sh N P0 →
  ∃ Q P, for_range N (hamiltonian_SV d_qH d_pH h T) (Q0, P0) = Some (Q, P)
         ∧ wf sh N Q ∧ wf sh N P ∧ Q !! 0 = Q0 !! 0 ∧ P !! 0 = P0 !! 0 ∧
         ∀ n, n < N →
           ∃ qn pn qn1 pn1,
             Q !! n = Some qn ∧ P !! n = Some pn ∧
             Q !! (n + 1) = Some qn1 ∧ P !! (n + 1) = Some pn1 ∧
             ∃ k1,
               Some pn ⊖ sc h ⊗ sc lit_half
                         ⊗ call3 d_qH (Some qn) (Some pn) (getT T n)
               = Some k1 ∧
               Some qn ⊕ sc h ⊗ call3 d_pH (Some qn) (Some k1) (getT T n)
               = Some qn1 ∧
               Some k1 ⊖ sc h ⊗ sc lit_half
                         ⊗ call3 d_qH (Some qn1) (Some pn) (getT T n)
               = Some pn1.
Proof.
  intros Hdq Hdp HQ0 HP0.
  apply (hamiltonian_loop sh N (hamiltonian_SV d_qH d_pH h T)
           (λ n qn pn qn1 pn1,
              ∃ k1,
                Some pn ⊖ sc h ⊗ sc lit_half
                          ⊗ call3 d_qH (Some qn) (Some pn) (getT T n)
                = Some k1 ∧
                Some qn ⊕ sc h ⊗ call3 d_pH (Some qn) (Some k1) (getT T n)
                = Some qn1 ∧
                Some k1 ⊖ sc h ⊗ sc lit_half
                          ⊗ call3 d_qH (Some qn1) (Some pn) (getT T n)
                = Some pn1) Q0 P0 HQ0 HP0).
  intros n Q P qn pn Hn HQ HP Hqn Hpn Hshq Hshp.
  by apply (hamiltonian_SV_step d_qH d_pH n Q P qn pn).
Qed.

End Steps.

(** ** The two solvers *)

Section Runs.
Context {R : Type} `{Num R}.

#[local] Abbreviation value := (value R).
#[local] Abbreviation pyfun := (pyfun R).

Lemma wf_initial D N (s_0 : value) :
  (1 ≤ D)%Z → shape_of s_0 = row_shape D →
  wf (row_shape D) N (initial D N s_0).
Proof. intros HD Hs. apply wf_insert; [by apply buffer_ok | done]. Qed.

Lemma lookup_initial_0 D N (s_0 : value) : initial D N s_0 !! 0 = Some s_0.
Proof.
  unfold initial. apply list_lookup_insert_eq.
  rewrite length_replicate. lia.
Qed.

Lemma lookup_initial_pos D N (s_0 : value) n :
  1 ≤ n ≤ N → initial D N s_0 !! n = Some (zero_state D).
Proof.
  intros Hn. unfold initial. rewrite list_lookup_insert_ne by lia.
  apply lookup_replicate_2. lia.
Qed.

Lemma allocate_ok D N (s_0 : value) :
  (1 ≤ D)%Z → shape_of s_0 = row_shape D →
  buffer D N ≫= (λ S, setitem S 0 s_0) = Some (initial D N s_0).
Proof.
  intros HD Hs. destruct (buffer_ok D N HD) as [-> Hwf]. simpl.
  apply (setitem_ok (row_shape D) N); [done | lia | done].
Qed.

(** The [if]s on [method] select at most one loop. *)
Lemma dynamics_solve_unfold (f : pyfun) D t_0 s_0 h N method :
  (1 ≤ D)%Z → shape_of s_0 = row_shape D →
  dynamics_solve f D t_0 s_0 h N method
  = S ← (if String.eqb method "Euler"
         then for_range N (dynamics_Euler f h (time_grid t_0 h N))
                (initial D N s_0)
         else if String.eqb method "RK2"
         then for_range N (dynamics_RK2 f h (time_grid t_0 h N))
                (initial D N s_0)
         else if String.eqb method "RK4"
         then for_range N (dynamics_RK4 f h (time_grid t_0 h N))
                (initial D N s_0)
         else Some (initial D N s_0));
    Some (time_grid t_0 h N, S).
Proof.
  intros HD Hs. unfold dynamics_solve.
  pose proof (allocate_ok D N s_0 HD Hs) as Halloc.
  destruct (buffer D N) as [S0|]; [simpl in Halloc|done]. simpl.
  rewrite Halloc. simpl.
  destruct (String.eqb_spec method "Euler") as [->|_]; simpl.
  { by destruct (for_range _ _ _). }
  destruct (String.eqb_spec method "RK2") as [->|_]; simpl.
  { by destruct (for_range _ _ _). }
  done.
Qed.

Lemma hamiltonian_solve_unfold (d_qH d_pH : pyfun) d t_0 q_0 p_0 h N
    method K m :
  (1 ≤ d)%Z → shape_of q_0 = row_shape d → shape_of p_0 = row_shape d →
  hamiltonian_solve d_qH d_pH d t_0 q_0 p_0 h N method K m
  = QP ← (if String.eqb method "Euler"
          then for_range N (hamiltonian_Euler d_qH d_pH h)
                 (initial d N q_0, initial d N p_0)
          else if String.eqb method "RK2"
          then for_range N (hamiltonian_RK2 d_qH d_pH h)
                 (initial d N q_0, initial d N p_0)
          else if String.eqb method "RK4"
          then for_range N (hamiltonian_RK4 d_qH d_pH h)
                 (initial d N q_0, initial d N p_0)
          else if String.eqb method "SE"
          then for_range N (hamiltonian_SE d_qH d_pH h (time_grid t_0 h N))
                 (initial d N q_0, initial d N p_0)
          else if String.eqb method "SV"
          then for_range N (hamiltonian_SV d_qH d_pH h (time_grid t_0 h N))
                 (initial d N q_0, initial d N p_0)
          else Some (initial d N q_0, initial d N p_0));
    Some (time_grid t_0 h N, QP.1, QP.2).
Proof.
  intros Hd Hq Hp. unfold hamiltonian_solve.
  pose proof (allocate_ok d N q_0 Hd Hq) as HallocQ.
  pose proof (allocate_ok d N p_0 Hd Hp) as HallocP.
  destruct (buffer d N) as [S0|]; [simpl in HallocQ, HallocP|done]. simpl.
  rewrite HallocP. simpl. rewrite HallocQ. simpl.
  destruct (String.eqb_spec method "Euler") as [->|_]; simpl.
  { by destruct (for_range _ _ _). }
  destruct (String.eqb_spec method "RK2") as [->|_]; simpl.
  { by destruct (for_range _ _ _). }
  destruct (String.eqb_spec method "RK4") as [->|_]; simpl.
  { by destruct (for_range _ _ _). }
  destruct (String.eqb_spec method "SE") as [->|_]; simpl.
  { by destruct (for_range _ _ _). }
  done.
Qed.

(** Every call on well-shaped inputs returns, with the time grid,
    well-shaped buffers and the initial state at index 0. *)
Lemma dynamics_solve_run (f : pyfun) D t_0 s_0 h N method :
  (1 ≤ D)%Z → shape_of s_0 = row_shape D →
  field_ok_for (row_shape D) method f →
  ∃ S, dynamics_solve f D t_0 s_0 h N method = Some (time_grid t_0 h N, S)
       ∧ wf (row_shape D) N S ∧ S !! 0 = Some s_0.
Proof.
  intros HD Hs. rewrite dynamics_solve_unfold by done.
  pose proof (wf_initial D N s_0 HD Hs) as H0.
  unfold field_ok_for, is_one_of. simpl.
  destruct (String.eqb method "Euler"); simpl.
  { intros Hf.
    destruct (dynamics_Euler_loop _ N t_0 h f _ Hf H0) as (S & -> & ? & HS0).
    exists S. by rewrite HS0, lookup_initial_0. }
  destruct (String.eqb method "RK2"); simpl.
  { intros Hf.
    destruct (dynamics_RK2_loop _ N t_0 h f _ Hf H0) as (S & -> & ? & HS0).
    exists S. by rewrite HS0, lookup_initial_0. }
  destruct (String.eqb method "RK4"); simpl.
  { intros Hf.
    destruct (dynamics_RK4_loop _ N t_0 h f _ Hf H0) as (S & -> & ? & HS0).
    exists S. by rewrite HS0, lookup_initial_0. }
  intros _. eexists. split; [done|]. by rewrite lookup_initial_0.
Qed.

Lemma hamiltonian_solve_run (d_qH d_pH : pyfun) d t_0 q_0 p_0 h N
    method K m :
  (1 ≤ d)%Z → shape_of q_0 = row_shape d → shape_of p_0 = row_shape d →
  deriv_ok_for (row_shape d) method d_qH →
  deriv_ok_for (row_shape d) method d_pH →
  ∃ Q P,
    hamiltonian_solve d_qH d_pH d t_0 q_0 p_0 h N method K m
    = Some (time_grid t_0 h N, Q, P)
    ∧ wf (row_shape d) N Q ∧ wf (row_shape d) N P
    ∧ Q !! 0 = Some q_0 ∧ P !! 0 = Some p_0.
Proof.
  intros Hd Hq Hp. rewrite hamiltonian_solve_unfold by done.
  pose proof (wf_initial d N q_0 Hd Hq) as HQ0.
  pose proof (wf_initial d N p_0 Hd Hp) as HP0.
  unfold deriv_ok_for, is_one_of. simpl.
  destruct (String.eqb method "Euler"); simpl.
  { intros Hdq Hdp.
    destruct (hamiltonian_Euler_loop _ N h d_qH d_pH _ _ Hdq Hdp HQ0 HP0)
      as (Q & P & -> & ? & ? & HQz & HPz).
    exists Q, P. by rewrite HQz, HPz, !lookup_initial_0. }
  destruct (String.eqb method "RK2"); simpl.
  { intros Hdq Hdp.
    destruct (hamiltonian_RK2_loop _ N h d_qH d_pH _ _ Hdq Hdp HQ0 HP0)
      as (Q & P & -> & ? & ? & HQz & HPz).
    exists Q, P. by rewrite HQz, HPz, !lookup_initial_0. }
  destruct (String.eqb method "RK4"); simpl.
  { intros Hdq Hdp.
    destruct (hamiltonian_RK4_loop _ N h d_qH d_pH _ _ Hdq Hdp HQ0 HP0)
      as (Q & P & -> & ? & ? & HQz & HPz).
    exists Q, P. by rewrite HQz, HPz, !lookup_initial_0. }
  destruct (String.eqb method "SE"); simpl.
  { intros Hdq Hdp.
    destruct (hamiltonian_SE_loop _ N t_0 h d_qH d_pH _ _ Hdq Hdp HQ0 HP0)
      as (Q & P & -> & ? & ? & HQz & HPz & _).
    exists Q, P. by rewrite HQz, HPz, !lookup_initial_0. }
  destruct (String.eqb method "SV"); simpl.
  { intros Hdq Hdp.
    destruct (hamiltonian_SV_loop _ N t_0 h d_qH d_pH _ _ Hdq Hdp HQ0 HP0)
      as (Q & P & -> & ? & ? & HQz & HPz & _).
    exists Q, P. by rewrite HQz, HPz, !lookup_initial_0. }
  intros _ _. eexists _, _. split; [done|]. by rewrite !lookup_initial_0.
Qed.

End Runs.

(** ** The symplectic schemes *)

Section Symplectic.
Context {R : Type} `{Num R}.

#[local] Abbreviation value := (value R).
#[local] Abbreviation pyfun := (pyfun R).

(** C1: with [method = "SV"], on well-shaped inputs of dimension [d >= 1],
    [hamiltonian_solve] returns [T], [Q], [P] such that for every
    [n < N]: the half-step momentum is
    [k1 = P[n] - h*.5*d_qH(Q[n], P[n], T[n])], then
    [Q[n+1] = Q[n] + h*d_pH(Q[n], k1, T[n])], then
    [P[n+1] = k1 - h*.5*d_qH(Q[n+1], P[n], T[n])]: the last call of
    [d_qH] takes the updated position [Q[n+1]] and the old momentum
    [P[n]], not [k1]. *)
Theorem hamiltonian_solve_SV_recurrence (d_qH d_pH : pyfun) d t_0
    (q_0 p_0 : value) h N K m :
  (1 ≤ d)%Z →
  shape_of q_0 = row_shape d → shape_of p_0 = row_shape d →
  deriv_ok3 (row_shape d) d_qH → deriv_ok3 (row_shape d) d_pH →
  ∃ T Q P,
    hamiltonian_solve d_qH d_pH d t_0 q_0 p_0 h N "SV" K m = Some (T, Q, P)
    ∧ ∀ n, n < N →
        ∃ tn qn pn k1 qn1 pn1,
          T !! n = Some tn ∧ Q !! n = Some qn ∧ P !! n = Some pn ∧
          Q !! (n + 1) = Some qn1 ∧ P !! (n + 1) = Some pn1 ∧
          Some pn ⊖ sc h ⊗ sc lit_half
                    ⊗ call3 d_qH (Some qn) (Some pn) (sc tn) = Some k1 ∧
          Some qn ⊕ sc h ⊗ call3 d_pH (Some qn) (Some k1) (sc tn)
          = Some qn1 ∧
          Some k1 ⊖ sc h ⊗ sc lit_half
                    ⊗ call3 d_qH (Some qn1) (Some pn) (sc tn) = Some pn1.
Proof.
  intros Hd Hq Hp Hdq Hdp. rewrite hamiltonian_solve_unfold by done. simpl.
  destruct (hamiltonian_SV_loop (row_shape d) N t_0 h d_qH d_pH
              (initial d N q_0) (initial d N p_0))
    as (Q & P & -> & _ & _ & _ & _ & Hrec);
    [done | done | by apply wf_initial | by apply wf_initial |].
  exists (time_grid t_0 h N), Q, P. split; [done|].
  intros n Hn.
  destruct (Hrec n Hn) as (qn & pn & qn1 & pn1 & ? & ? & ? & ? & k1 & Hk).
  rewrite getT_time_grid in Hk by lia.
  eexists _, qn, pn, k1, qn1, pn1.
  rewrite lookup_time_grid by lia. done.
Qed.

(** C4: with [method = "SE"], on well-shaped inputs of dimension [d >= 1],
    [hamiltonian_solve] returns [T], [Q], [P] such that for every
    [n < N]: [Q[n+1] = Q[n] + h*d_pH(Q[n], P[n], T[n])] and then
    [P[n+1] = P[n] - h*d_qH(Q[n+1], P[n], T[n])], the momentum update
    taking the position [Q[n+1]] just stored, not [Q[n]]. *)
Theorem hamiltonian_solve_SE_recurrence (d_qH d_pH : pyfun) d t_0
    (q_0 p_0 : value) h N K m :
  (1 ≤ d)%Z →
  shape_of q_0 = row_shape d → shape_of p_0 = row_shape d →
  deriv_ok3 (row_shape d) d_qH → deriv_ok3 (row_shape d) d_pH →
  ∃ T Q P,
    hamiltonian_solve d_qH d_pH d t_0 q_0 p_0 h N "SE" K m = Some (T, Q, P)
    ∧ ∀ n, n < N →
        ∃ tn qn pn qn1 pn1,
          T !! n = Some tn ∧ Q !! n = Some qn ∧ P !! n = Some pn ∧
          Q !! (n + 1) = Some qn1 ∧ P !! (n + 1) = Some pn1 ∧
          Some qn ⊕ sc h ⊗ call3 d_pH (Some qn) (Some pn) (sc tn)
          = Some qn1 ∧
          Some pn ⊖ sc h ⊗ call3 d_qH (Some qn1) (Some pn) (sc tn)
          = Some pn1.
Proof.
  intros Hd Hq Hp Hdq Hdp. rewrite hamiltonian_solve_unfold by done. simpl.
  destruct (hamiltonian_SE_loop (row_shape d) N t_0 h d_qH d_pH
              (initial d N q_0) (initial d N p_0))
    as (Q & P & -> & _ & _ & _ & _ & Hrec);
    [done | done | by apply wf_initial | by apply wf_initial |].
  exists (time_grid t_0 h N), Q, P. split; [done|].
  intros n Hn.
  destruct (Hrec n Hn) as (qn & pn & qn1 & pn1 & ? & ? & ? & ? & Hk).
  rewrite getT_time_grid in Hk by lia.
  eexists _, qn, pn, qn1, pn1.
  rewrite lookup_time_grid by lia. done.
Qed.

End Symplectic.

(** ** The sample systems are well-shaped *)

Section Samples.
Context {R : Type} `{Num R}.

Lemma linear_field_ok sh : field_ok (R := R) sh linear_field.
Proof. intros t s Hs. by exists s. Qed.

Lemma oscillator_dqH_ok2 sh : deriv_ok2 (R := R) sh oscillator_dqH.
Proof. intros q p Hq Hp. by exists q. Qed.

Lemma oscillator_dpH_ok2 sh : deriv_ok2 (R := R) sh oscillator_dpH.
Proof. intros q p Hq Hp. by exists p. Qed.

Lemma oscillator_dqH_ok3 sh : deriv_ok3 (R := R) sh oscillator_dqH.
Proof. intros q p t Hq Hp. by exists q. Qed.

Lemma oscillator_dpH_ok3 sh : deriv_ok3 (R := R) sh oscillator_dpH.
Proof. intros q p t Hq Hp. by exists p. Qed.

End Samples.

(** The oscillator from rest position [q = (0, 0)] with momentum [(1, 0)],
    three steps of Störmer-Verlet in exact arithmetic. *)
Lemma hamiltonian_solve_SV_recurrence_witness :
  ∃ T Qs Ps,
    hamiltonian_solve (R := Q) oscillator_dqH oscillator_dpH 2 0%Q
      (Array [0%Q; 0%Q]) (Array [1%Q; 0%Q]) (1 # 10)%Q 3 "SV" 0%Q 0%Q
    = Some (T, Qs, Ps)
    ∧ ∀ n, n < 3 →
        ∃ tn qn pn k1 qn1 pn1,
          T !! n = Some tn ∧ Qs !! n = Some qn ∧ Ps !! n = Some pn ∧
          Qs !! (n + 1) = Some qn1 ∧ Ps !! (n + 1) = Some pn1 ∧
          Some pn ⊖ sc (1 # 10)%Q ⊗ sc lit_half
                    ⊗ call3 oscillator_dqH (Some qn) (Some pn) (sc tn)
          = Some k1 ∧
          Some qn ⊕ sc (1 # 10)%Q
                    ⊗ call3 oscillator_dpH (Some qn) (Some k1) (sc tn)
          = Some qn1 ∧
          Some k1 ⊖ sc (1 # 10)%Q ⊗ sc lit_half
                    ⊗ call3 oscillator_dqH (Some qn1) (Some pn) (sc tn)
          = Some pn1.
Proof.
  apply (hamiltonian_solve_SV_recurrence (R := Q)).
  - lia.
  - reflexivity.
  - reflexivity.
  - apply oscillator_dqH_ok3.
  - apply oscillator_dpH_ok3.
Defined.

(** The scalar oscillator, three steps of symplectic Euler. *)
Lemma hamiltonian_solve_SE_recurrence_witness :
  ∃ T Qs Ps,
    hamiltonian_solve (R := Q) oscillator_dqH oscillator_dpH 1 0%Q
      (Scalar 0%Q) (Scalar 1%Q) (1 # 10)%Q 3 "SE" 0%Q 0%Q
    = Some (T, Qs, Ps)
    ∧ ∀ n, n < 3 →
        ∃ tn qn pn qn1 pn1,
          T !! n = Some tn ∧ Qs !! n = Some qn ∧ Ps !! n = Some pn ∧
          Qs !! (n + 1) = Some qn1 ∧ Ps !! (n + 1) = Some pn1 ∧
          Some qn ⊕ sc (1 # 10)%Q
                    ⊗ call3 oscillator_dpH (Some qn) (Some pn) (sc tn)
          = Some qn1 ∧
          Some pn ⊖ sc (1 # 10)%Q
                    ⊗ call3 oscillator_dqH (Some qn1) (Some pn) (sc tn)
          = Some pn1.
Proof.
  apply (hamiltonian_solve_SE_recurrence (R := Q)).
  - lia.
  - reflexivity.
  - reflexivity.
  - apply oscillator_dqH_ok3.
  - apply oscillator_dpH_ok3.
Defined.

(** ** Properties of every call *)

Section Calls.
Context {R : Type} `{Num R}.

#[local] Abbreviation value := (value R).
#[local] Abbreviation pyfun := (pyfun R).

(** C7: on well-shaped inputs and for any [method] string, the time grid
    both solvers return has length [N + 1] and [T[n] = t_0 + n * h] for
    every [n] in [0, N]. *)
Theorem time_grid_exact (f d_qH d_pH : pyfun) D t_0 (s_0 q_0 p_0 : value)
    h N method K m :
  (1 ≤ D)%Z →
  shape_of s_0 = row_shape D →
  shape_of q_0 = row_shape D → shape_of p_0 = row_shape D →
  field_ok_for (row_shape D) method f →
  deriv_ok_for (row_shape D) method d_qH →
  deriv_ok_for (row_shape D) method d_pH →
  (∃ T S,
     dynamics_solve f D t_0 s_0 h N method = Some (T, S)
     ∧ length T = N + 1
     ∧ ∀ n, n ≤ N →
         T !! n = Some (radd t_0 (rmul (of_int (Z.of_nat n)) h)))
  ∧ (∃ T Q P,
       hamiltonian_solve d_qH d_pH D t_0 q_0 p_0 h N method K m
       = Some (T, Q, P)
       ∧ length T = N + 1
       ∧ ∀ n, n ≤ N →
           T !! n = Some (radd t_0 (rmul (of_int (Z.of_nat n)) h))).
Proof.
  intros HD Hs Hq Hp Hf Hdq Hdp. split.
  - destruct (dynamics_solve_run f D t_0 s_0 h N method HD Hs Hf)
      as (S & -> & _).
    exists (time_grid t_0 h N), S. split; [done|].
    split; [apply length_time_grid|]. intros n Hn. by apply lookup_time_grid.
  - destruct (hamiltonian_solve_run d_qH d_pH D t_0 q_0 p_0 h N method K m
                HD Hq Hp Hdq Hdp) as (Q & P & -> & _).
    exists (time_grid t_0 h N), Q, P. split; [done|].
    split; [apply length_time_grid|]. intros n Hn. by apply lookup_time_grid.
Qed.

(** C8: on well-shaped inputs, whatever the scheme, the first entry of
    every returned trajectory is the initial condition itself:
    [S[0] = s_0], [Q[0] = q_0] and [P[0] = p_0]. *)
Theorem first_entry_is_initial_condition (f d_qH d_pH : pyfun) D t_0
    (s_0 q_0 p_0 : value) h N method K m :
  (1 ≤ D)%Z →
  shape_of s_0 = row_shape D →
  shape_of q_0 = row_shape D → shape_of p_0 = row_shape D →
  field_ok_for (row_shape D) method f →
  deriv_ok_for (row_shape D) method d_qH →
  deriv_ok_for (row_shape D) method d_pH →
  (∃ T S,
     dynamics_solve f D t_0 s_0 h N method = Some (T, S)
     ∧ S !! 0 = Some s_0)
  ∧ (∃ T Q P,
       hamiltonian_solve d_qH d_pH D t_0 q_0 p_0 h N method K m
       = Some (T, Q, P)
       ∧ Q !! 0 = Some q_0 ∧ P !! 0 = Some p_0).
Proof.
  intros HD Hs Hq Hp Hf Hdq Hdp. split.
  - destruct (dynamics_solve_run f D t_0 s_0 h N method HD Hs Hf)
      as (S & -> & _ & HS0).
    by exists (time_grid t_0 h N), S.
  - destruct (hamiltonian_solve_run d_qH d_pH D t_0 q_0 p_0 h N method K m
                HD Hq Hp Hdq Hdp) as (Q & P & -> & _ & _ & HQ0 & HP0).
    by exists (time_grid t_0 h N), Q, P.
Qed.

(** C6: [hamiltonian_solve] returns the same [(T, Q, P)] whatever the
    values of the parameters [K] and [m]. *)
Theorem hamiltonian_solve_ignores_K_m (d_qH d_pH : pyfun) d t_0
    (q_0 p_0 : value) h N method (K1 m1 K2 m2 : R) :
  hamiltonian_solve d_qH d_pH d t_0 q_0 p_0 h N method K1 m1
  = hamiltonian_solve d_qH d_pH d t_0 q_0 p_0 h N method K2 m2.
Proof. reflexivity. Qed.

(** C5: with a [method] string that is none of the scheme names, a call
    on a well-shaped initial state returns: the time grid, and
    trajectories of length [N + 1] whose entry 0 is the initial state and
    whose entries 1 to [N] are the zeros [np.zeros] left.  The derivative
    functions are not called: the result is that of the call with
    functions that raise. *)
Theorem unknown_method_leaves_zeros (f d_qH d_pH : pyfun) D t_0
    (s_0 q_0 p_0 : value) h N method_d method_h K m :
  (1 ≤ D)%Z →
  shape_of s_0 = row_shape D →
  shape_of q_0 = row_shape D → shape_of p_0 = row_shape D →
  is_one_of ["Euler"; "RK2"; "RK4"] method_d = false →
  is_one_of ["Euler"; "RK2"; "RK4"; "SE"; "SV"] method_h = false →
  (∃ S,
     dynamics_solve f D t_0 s_0 h N method_d = Some (time_grid t_0 h N, S)
     ∧ length S = N + 1
     ∧ S !! 0 = Some s_0
     ∧ (∀ n, 1 ≤ n ≤ N → S !! n = Some (zero_state D))
     ∧ dynamics_solve raising D t_0 s_0 h N method_d
       = Some (time_grid t_0 h N, S))
  ∧ (∃ Q P,
       hamiltonian_solve d_qH d_pH D t_0 q_0 p_0 h N method_h K m
       = Some (time_grid t_0 h N, Q, P)
       ∧ length Q = N + 1 ∧ length P = N + 1
       ∧ Q !! 0 = Some q_0 ∧ P !! 0 = Some p_0
       ∧ (∀ n, 1 ≤ n ≤ N →
            Q !! n = Some (zero_state D) ∧ P !! n = Some (zero_state D))
       ∧ hamiltonian_solve raising raising D t_0 q_0 p_0 h N method_h K m
         = Some (time_grid t_0 h N, Q, P)).
Proof.
  intros HD Hs Hq Hp Hmd Hmh. unfold is_one_of in Hmd, Hmh. simpl in Hmd, Hmh.
  repeat (apply orb_false_elim in Hmd as [? Hmd]).
  repeat (apply orb_false_elim in Hmh as [? Hmh]).
  split.
  - exists (initial D N s_0). rewrite !dynamics_solve_unfold by done.
    repeat match goal with Hm : String.eqb _ _ = false |- _ =>
             rewrite Hm; clear Hm end.
    simpl. split; [done|].
    split; [by apply (wf_initial D N s_0)|].
    split; [apply lookup_initial_0|].
    split; [|done]. intros n Hn. by apply lookup_initial_pos.
  - exists (initial D N q_0), (initial D N p_0).
    rewrite !hamiltonian_solve_unfold by done.
    repeat match goal with Hm : String.eqb _ _ = false |- _ =>
             rewrite Hm; clear Hm end.
    simpl. split; [done|].
    split; [by apply (wf_initial D N q_0)|].
    split; [by apply (wf_initial D N p_0)|].
    split; [apply lookup_initial_0|].
    split; [apply lookup_initial_0|].
    split; [|done]. intros n Hn. by rewrite !lookup_initial_pos.
Qed.

(** C10: with [N = 0], on a well-shaped initial state and whatever the
    scheme, [dynamics_solve] returns [S = [s_0]] and [hamiltonian_solve]
    returns [Q = [q_0]] and [P = [p_0]], for any derivative functions:
    they are not called (functions that raise give the same result), so
    the trajectories depend neither on them nor on [method]. *)
Theorem zero_steps (f d_qH d_pH : pyfun) D t_0 (s_0 q_0 p_0 : value)
    h method K m :
  (1 ≤ D)%Z →
  shape_of s_0 = row_shape D →
  shape_of q_0 = row_shape D → shape_of p_0 = row_shape D →
  dynamics_solve f D t_0 s_0 h 0 method
  = Some ([radd t_0 (rmul (of_int 0) h)], [s_0])
  ∧ hamiltonian_solve d_qH d_pH D t_0 q_0 p_0 h 0 method K m
    = Some ([radd t_0 (rmul (of_int 0) h)], [q_0], [p_0])
  ∧ dynamics_solve raising D t_0 s_0 h 0 method
    = dynamics_solve f D t_0 s_0 h 0 method
  ∧ hamiltonian_solve raising raising D t_0 q_0 p_0 h 0 method K m
    = hamiltonian_solve d_qH d_pH D t_0 q_0 p_0 h 0 method K m.
Proof.
  intros HD Hs Hq Hp.
  rewrite !dynamics_solve_unfold, !hamiltonian_solve_unfold by done.
  unfold for_range. simpl.
  repeat match goal with |- context [String.eqb ?a ?b] =>
           destruct (String.eqb a b) end; done.
Qed.

End Calls.

(** ** Test cases *)

(** C9: for [f(t, s) = s], [D = 1], [s_0 = 1], [h = 1/10], [N = 10] and
    [method = "Euler"], [dynamics_solve] returns [S] with
    [S[10] = (11/10)^10]: exactly so in rational arithmetic, and in binary64
    (where [h] is the float nearest to 1/10) up to an error below
    [10^-14]. *)
Theorem linear_test_Euler :
  (∃ T S,
     dynamics_solve (R := Q) linear_field 1 0%Q (Scalar 1%Q) (1 # 10)%Q
       10 "Euler" = Some (T, S)
     ∧ S !! 10 = Some (Scalar ((11 # 10) ^ 10)%Q))
  ∧ (∃ T S x y,
       dynamics_solve (R := float) linear_field 1 0%float (Scalar 1%float)
         0x1.999999999999ap-4%float 10 "Euler" = Some (T, S)
       ∧ S !! 10 = Some (Scalar x)
       ∧ float_to_Q x = Some y
       ∧ (Qabs (y - (11 # 10) ^ 10) < 1 # 100000000000000)%Q).
Proof.
  split.
  - eexists _, _. split; [vm_compute; reflexivity|]. vm_compute. reflexivity.
  - eexists _, _, _, _. split; [vm_compute; reflexivity|].
    split; [vm_compute; reflexivity|].
    split; [vm_compute; reflexivity|].
    vm_compute. reflexivity.
Qed.

(** C3: [f(t, s) = t], one step of size 1 from [t_0 = 0], [s_0 = 0] with
    [method = "RK4"].  The fourth stage of the code calls [f] at time
    [T[0] = 0], so [dynamics_solve] returns [S[1] = 1/3]; the classical
    scheme, with the fourth stage at [T[0] + h = 1], gives [1/2]. *)
Theorem dynamics_solve_RK4_fourth_stage_time :
  dynamics_solve (R := Q) clock_field 1 0%Q (Scalar 0%Q) 1%Q 1 "RK4"
  = Some ([0%Q; 1%Q], [Scalar 0%Q; Scalar (1 # 3)%Q])
  ∧ RK4_classical (R := Q) clock_field 1%Q 0%Q (Scalar 0%Q)
    = Some (Scalar (1 # 2)%Q).
Proof. split; vm_compute; reflexivity. Qed.

(** C2: the oscillator [dqH = q], [dpH = p], one step of size 1 from
    [q_0 = 0], [p_0 = 1].  With [method = "RK2"], [hamiltonian_solve]
    returns [Q[1] = 3/2], [P[1] = 1], where the RK2 scheme of
    [dynamics_solve] on the coupled pair returns [(1, 1/2)]: the second
    stage of the code calls [d_pH] at [(Q + k1_Q/2, P + k1_Q/2)] and [d_qH]
    at [(Q + k1_P/2, P + k1_P/2)], two different points.  With
    [method = "Euler"] the two solvers agree. *)
Theorem hamiltonian_solve_RK2_stage_points :
  hamiltonian_solve (R := Q) oscillator_dqH oscillator_dpH 1 0%Q
    (Scalar 0%Q) (Scalar 1%Q) 1%Q 1 "RK2" 0%Q 0%Q
  = Some ([0%Q; 1%Q], [Scalar 0%Q; Scalar (3 # 2)%Q], [Scalar 1%Q; Scalar 1%Q])
  ∧ dynamics_solve (R := Q) (coupled_field oscillator_dqH oscillator_dpH) 2
      0%Q (Array [0%Q; 1%Q]) 1%Q 1 "RK2"
    = Some ([0%Q; 1%Q], [Array [0%Q; 1%Q]; Array [1%Q; (1 # 2)%Q]])
  ∧ hamiltonian_solve (R := Q) oscillator_dqH oscillator_dpH 1 0%Q
      (Scalar 0%Q) (Scalar 1%Q) 1%Q 1 "Euler" 0%Q 0%Q
    = Some ([0%Q; 1%Q], [Scalar 0%Q; Scalar 1%Q], [Scalar 1%Q; Scalar 1%Q])
  ∧ dynamics_solve (R := Q) (coupled_field oscillator_dqH oscillator_dpH) 2
      0%Q (Array [0%Q; 1%Q]) 1%Q 1 "Euler"
    = Some ([0%Q; 1%Q], [Array [0%Q; 1%Q]; Array [1%Q; 1%Q]]).
Proof. repeat split; vm_compute; reflexivity. Qed.

(** ** Instances of the properties of every call *)

(** Two steps of RK4 on a two-dimensional state. *)
Lemma time_grid_exact_witness :
  (∃ T S,
     dynamics_solve (R := Q) linear_field 2 0%Q (Array [1%Q; 2%Q])
       (1 # 10)%Q 2 "RK4" = Some (T, S)
     ∧ length T = 2 + 1
     ∧ ∀ n, n ≤ 2 →
         T !! n = Some (radd 0%Q (rmul (of_int (Z.of_nat n)) (1 # 10)%Q)))
  ∧ (∃ T Qs Ps,
       hamiltonian_solve (R := Q) oscillator_dqH oscillator_dpH 2 0%Q
         (Array [0%Q; 0%Q]) (Array [1%Q; 0%Q]) (1 # 10)%Q 2 "RK4" 0%Q 0%Q
       = Some (T, Qs, Ps)
       ∧ length T = 2 + 1
       ∧ ∀ n, n ≤ 2 →
           T !! n = Some (radd 0%Q (rmul (of_int (Z.of_nat n)) (1 # 10)%Q))).
Proof.
  apply (time_grid_exact (R := Q)).
  - lia.
  - reflexivity.
  - reflexivity.
  - reflexivity.
  - exact (linear_field_ok _).
  - exact (oscillator_dqH_ok2 _).
  - exact (oscillator_dpH_ok2 _).
Defined.

(** Five steps of RK2 on a scalar state. *)
Lemma first_entry_is_initial_condition_witness :
  (∃ T S,
     dynamics_solve (R := Q) linear_field 1 0%Q (Scalar 1%Q)
       (1 # 10)%Q 5 "RK2" = Some (T, S)
     ∧ S !! 0 = Some (Scalar 1%Q))
  ∧ (∃ T Qs Ps,
       hamiltonian_solve (R := Q) oscillator_dqH oscillator_dpH 1 0%Q
         (Scalar 0%Q) (Scalar 1%Q) (1 # 10)%Q 5 "RK2" 0%Q 0%Q
       = Some (T, Qs, Ps)
       ∧ Qs !! 0 = Some (Scalar 0%Q) ∧ Ps !! 0 = Some (Scalar 1%Q)).
Proof.
  apply (first_entry_is_initial_condition (R := Q)).
  - lia.
  - reflexivity.
  - reflexivity.
  - reflexivity.
  - exact (linear_field_ok _).
  - exact (oscillator_dqH_ok2 _).
  - exact (oscillator_dpH_ok2 _).
Defined.

(** [method = "bogus"], three steps on a two-dimensional state. *)
Lemma unknown_method_leaves_zeros_witness :
  (∃ S,
     dynamics_solve (R := Q) linear_field 2 0%Q (Array [1%Q; 2%Q])
       (1 # 10)%Q 3 "bogus" = Some (time_grid 0%Q (1 # 10)%Q 3, S)
     ∧ length S = 3 + 1
     ∧ S !! 0 = Some (Array [1%Q; 2%Q])
     ∧ (∀ n, 1 ≤ n ≤ 3 → S !! n = Some (zero_state 2))
     ∧ dynamics_solve (R := Q) raising 2 0%Q (Array [1%Q; 2%Q])
         (1 # 10)%Q 3 "bogus" = Some (time_grid 0%Q (1 # 10)%Q 3, S))
  ∧ (∃ Qs Ps,
       hamiltonian_solve (R := Q) oscillator_dqH oscillator_dpH 2 0%Q
         (Array [0%Q; 0%Q]) (Array [1%Q; 0%Q]) (1 # 10)%Q 3 "bogus" 0%Q 0%Q
       = Some (time_grid 0%Q (1 # 10)%Q 3, Qs, Ps)
       ∧ length Qs = 3 + 1 ∧ length Ps = 3 + 1
       ∧ Qs !! 0 = Some (Array [0%Q; 0%Q]) ∧ Ps !! 0 = Some (Array [1%Q; 0%Q])
       ∧ (∀ n, 1 ≤ n ≤ 3 →
            Qs !! n = Some (zero_state 2) ∧ Ps !! n = Some (zero_state 2))
       ∧ hamiltonian_solve (R := Q) raising raising 2 0%Q
           (Array [0%Q; 0%Q]) (Array [1%Q; 0%Q]) (1 # 10)%Q 3 "bogus" 0%Q 0%Q
         = Some (time_grid 0%Q (1 # 10)%Q 3, Qs, Ps)).
Proof.
  apply (unknown_method_leaves_zeros (R := Q)).
  - lia.
  - reflexivity.
  - reflexivity.
  - reflexivity.
  - reflexivity.
  - reflexivity.
Defined.

(** No step, with [method = "SV"] and the oscillator. *)
Lemma zero_steps_witness :
  dynamics_solve (R := Q) linear_field 1 0%Q (Scalar 1%Q) (1 # 10)%Q 0 "SV"
  = Some ([radd 0%Q (rmul (of_int 0) (1 # 10)%Q)], [Scalar 1%Q])
  ∧ hamiltonian_solve (R := Q) oscillator_dqH oscillator_dpH 1 0%Q
      (Scalar 0%Q) (Scalar 1%Q) (1 # 10)%Q 0 "SV" 0%Q 0%Q
    = Some ([radd 0%Q (rmul (of_int 0) (1 # 10)%Q)],
            [Scalar 0%Q], [Scalar 1%Q])
  ∧ dynamics_solve (R := Q) raising 1 0%Q (Scalar 1%Q) (1 # 10)%Q 0 "SV"
    = dynamics_solve (R := Q) linear_field 1 0%Q (Scalar 1%Q) (1 # 10)%Q
        0 "SV"
  ∧ hamiltonian_solve (R := Q) raising raising 1 0%Q
      (Scalar 0%Q) (Scalar 1%Q) (1 # 10)%Q 0 "SV" 0%Q 0%Q
    = hamiltonian_solve (R := Q) oscillator_dqH oscillator_dpH 1 0%Q
        (Scalar 0%Q) (Scalar 1%Q) (1 # 10)%Q 0 "SV" 0%Q 0%Q.
Proof.
  apply (zero_steps (R := Q)).
  - lia.
  - reflexivity.
  - reflexivity.
  - reflexivity.
Defined.

(** ** Every scheme, step by step *)

Section Traces.
Context {R : Type} `{Num R}.

#[local] Abbreviation value := (value R).
#[local] Abbreviation pyfun := (pyfun R).

Lemma hamiltonian_RK2_stages sh N h (d_qH d_pH : pyfun) n
    (Q P : list value) qn pn :
  deriv_ok2 sh d_qH → deriv_ok2 sh d_pH →
  n < N → wf sh N Q → wf sh N P →
  Q !! n = Some qn → P !! n = Some pn →
  shape_of qn = sh → shape_of pn = sh →
  ∃ qv pv,
    hamiltonian_RK2 d_qH d_pH h n (Q, P)
    = Some (<[n + 1 := qv]> Q, <[n + 1 := pv]> P)
    ∧ shape_of qv = sh ∧ shape_of pv = sh
    ∧ hamiltonian_RK2_rel d_qH d_pH h qn pn qv pv.
Proof.
  intros Hdq Hdp Hn HQ HP Hqn Hpn Hshq Hshp.
  unfold hamiltonian_RK2, hamiltonian_RK2_rel.
  eexists _, _. split; [eval_py sh N; reflexivity|].
  split; [shape_tac|]. split; [shape_tac|]. eexists _, _, _, _.
  split; [eval_py sh N; reflexivity|].
  split; [eval_py sh N; reflexivity|].
  split; [eval_py sh N; reflexivity|].
  split; [eval_py sh N; reflexivity|].
  split; [eval_py sh N; reflexivity | eval_py sh N; reflexivity].
Qed.

Lemma hamiltonian_RK4_stages sh N h (d_qH d_pH : pyfun) n
    (Q P : list value) qn pn :
  deriv_ok2 sh d_qH → deriv_ok2 sh d_pH →
  n < N → wf sh N Q → wf sh N P →
  Q !! n = Some qn → P !! n = Some pn →
  shape_of qn = sh → shape_of pn = sh →
  ∃ qv pv,
    hamiltonian_RK4 d_qH d_pH h n (Q, P)
    = Some (<[n + 1 := qv]> Q, <[n + 1 := pv]> P)
    ∧ shape_of qv = sh ∧ shape_of pv = sh
    ∧ hamiltonian_RK4_rel d_qH d_pH h qn pn qv pv.
Proof.
  intros Hdq Hdp Hn HQ HP Hqn Hpn Hshq Hshp.
  unfold hamiltonian_RK4, hamiltonian_RK4_rel.
  eexists _, _. split; [eval_py sh N; reflexivity|].
  split; [shape_tac|]. split; [shape_tac|]. eexists _, _, _, _, _, _, _, _.
  split; [eval_py sh N; reflexivity|].
  split; [eval_py sh N; reflexivity|].
  split; [eval_py sh N; reflexivity|].
  split; [eval_py sh N; reflexivity|].
  split; [eval_py sh N; reflexivity|].
  split; [eval_py sh N; reflexivity|].
  split; [eval_py sh N; reflexivity|].
  split; [eval_py sh N; reflexivity|].
  split; [eval_py sh N; reflexivity | eval_py sh N; reflexivity].
Qed.

(** A call with a recognised scheme returns buffers whose consecutive
    entries are related by the step of the scheme. *)
Lemma dynamics_solve_trace (f : pyfun) D t_0 (s_0 : value) h N method :
  (1 ≤ D)%Z → shape_of s_0 = row_shape D →
  is_one_of ["Euler"; "RK2"; "RK4"] method = true →
  field_ok (row_shape D) f →
  ∃ S,
    dynamics_solve f D t_0 s_0 h N method = Some (time_grid t_0 h N, S)
    ∧ wf (row_shape D) N S ∧ S !! 0 = Some s_0
    ∧ ∀ n, n < N →
        ∃ sn sn1,
          S !! n = Some sn ∧ S !! (n + 1) = Some sn1 ∧
          dynamics_rel method f h (time_at t_0 h n) sn sn1.
Proof.
  intros HD Hs Hm Hf. rewrite dynamics_solve_unfold by done.
  pose proof (wf_initial D N s_0 HD Hs) as H0.
  unfold dynamics_rel. revert Hm. unfold is_one_of. simpl.
  destruct (String.eqb method "Euler"); simpl.
  { intros _.
    destruct (dynamics_loop (row_shape D) N
                (dynamics_Euler f h (time_grid t_0 h N))
                (λ n sn v, dynamics_Euler_rel f h (time_at t_0 h n) sn v)
                (initial D N s_0) H0) as (S & -> & HS & HS0 & Hrec).
    - intros n S sn Hn HS Hsn Hsh.
      destruct (dynamics_Euler_step (row_shape D) N t_0 h f n S sn)
        as (v & Hb & Hv & HR); try done.
      rewrite getT_time_grid in HR by lia. by exists v.
    - exists S. by rewrite HS0, lookup_initial_0. }
  destruct (String.eqb method "RK2"); simpl.
  { intros _.
    destruct (dynamics_loop (row_shape D) N
                (dynamics_RK2 f h (time_grid t_0 h N))
                (λ n sn v, dynamics_RK2_rel f h (time_at t_0 h n) sn v)
                (initial D N s_0) H0) as (S & -> & HS & HS0 & Hrec).
    - intros n S sn Hn HS Hsn Hsh.
      destruct (dynamics_RK2_step (row_shape D) N t_0 h f n S sn)
        as (v & Hb & Hv & HR); try done.
      rewrite getT_time_grid in HR by lia. by exists v.
    - exists S. by rewrite HS0, lookup_initial_0. }
  destruct (String.eqb method "RK4"); simpl; [|done].
  intros _.
  destruct (dynamics_loop (row_shape D) N
              (dynamics_RK4 f h (time_grid t_0 h N))
              (λ n sn v, dynamics_RK4_rel f h (time_at t_0 h n) sn v)
              (initial D N s_0) H0) as (S & -> & HS & HS0 & Hrec).
  - intros n S sn Hn HS Hsn Hsh.
    destruct (dynamics_RK4_step (row_shape D) N t_0 h f n S sn)
      as (v & Hb & Hv & HR); try done.
    rewrite getT_time_grid in HR by lia. by exists v.
  - exists S. by rewrite HS0, lookup_initial_0.
Qed.

End Traces.

Section HamiltonianTraces.
Context {R : Type} `{Num R}.

#[local] Abbreviation value := (value R).
#[local] Abbreviation pyfun := (pyfun R).

Lemma hamiltonian_solve_trace (d_qH d_pH : pyfun) d t_0 (q_0 p_0 : value)
    h N method K m :
  (1 ≤ d)%Z → shape_of q_0 = row_shape d → shape_of p_0 = row_shape d →
  is_one_of ["Euler"; "RK2"; "RK4"; "SE"; "SV"] method = true →
  deriv_ok_for (row_shape d) method d_qH →
  deriv_ok_for (row_shape d) method d_pH →
  ∃ Q P,
    hamiltonian_solve d_qH d_pH d t_0 q_0 p_0 h N method K m
    = Some (time_grid t_0 h N, Q, P)
    ∧ wf (row_shape d) N Q ∧ wf (row_shape d) N P
    ∧ Q !! 0 = Some q_0 ∧ P !! 0 = Some p_0
    ∧ ∀ n, n < N →
        ∃ qn pn qn1 pn1,
          Q !! n = Some qn ∧ P !! n = Some pn ∧
          Q !! (n + 1) = Some qn1 ∧ P !! (n + 1) = Some pn1 ∧
          hamiltonian_rel method d_qH d_pH h (time_at t_0 h n) qn pn qn1 pn1.
Proof.
  intros Hd Hq Hp Hm. rewrite hamiltonian_solve_unfold by done.
  pose proof (wf_initial d N q_0 Hd Hq) as HQ0.
  pose proof (wf_initial d N p_0 Hd Hp) as HP0.
  unfold hamiltonian_rel, deriv_ok_for. revert Hm. unfold is_one_of. simpl.
  destruct (String.eqb method "Euler"); simpl.
  { intros _ Hdq Hdp.
    destruct (hamiltonian_loop (row_shape d) N
                (hamiltonian_Euler d_qH d_pH h)
                (λ n qn pn qv pv, hamiltonian_Euler_rel d_qH d_pH h qn pn qv pv)
                (initial d N q_0) (initial d N p_0) HQ0 HP0)
      as (Q & P & -> & HQ & HP & HQz & HPz & Hrec).
    - intros n Q P qn pn Hn HQ HP Hqn Hpn Hshq Hshp.
      destruct (hamiltonian_Euler_step (row_shape d) N h d_qH d_pH n Q P qn pn)
        as (qv & pv & Hb & Hqv & Hpv & HR); try done.
      by exists qv, pv.
    - exists Q, P. by rewrite HQz, HPz, !lookup_initial_0. }
  destruct (String.eqb method "RK2"); simpl.
  { intros _ Hdq Hdp.
    destruct (hamiltonian_loop (row_shape d) N
                (hamiltonian_RK2 d_qH d_pH h)
                (λ n qn pn qv pv, hamiltonian_RK2_rel d_qH d_pH h qn pn qv pv)
                (initial d N q_0) (initial d N p_0) HQ0 HP0)
      as (Q & P & -> & HQ & HP & HQz & HPz & Hrec).
    - intros n Q P qn pn Hn HQ HP Hqn Hpn Hshq Hshp.
      by apply (hamiltonian_RK2_stages (row_shape d) N h d_qH d_pH n Q P qn pn).
    - exists Q, P. by rewrite HQz, HPz, !lookup_initial_0. }
  destruct (String.eqb method "RK4"); simpl.
  { intros _ Hdq Hdp.
    destruct (hamiltonian_loop (row_shape d) N
                (hamiltonian_RK4 d_qH d_pH h)
                (λ n qn pn qv pv, hamiltonian_RK4_rel d_qH d_pH h qn pn qv pv)
                (initial d N q_0) (initial d N p_0) HQ0 HP0)
      as (Q & P & -> & HQ & HP & HQz & HPz & Hrec).
    - intros n Q P qn pn Hn HQ HP Hqn Hpn Hshq Hshp.
      by apply (hamiltonian_RK4_stages (row_shape d) N h d_qH d_pH n Q P qn pn).
    - exists Q, P. by rewrite HQz, HPz, !lookup_initial_0. }
  destruct (String.eqb method "SE"); simpl.
  { intros _ Hdq Hdp.
    destruct (hamiltonian_loop (row_shape d) N
                (hamiltonian_SE d_qH d_pH h (time_grid t_0 h N))
                (λ n qn pn qv pv,
                   hamiltonian_SE_rel d_qH d_pH h (time_at t_0 h n) qn pn qv pv)
                (initial d N q_0) (initial d N p_0) HQ0 HP0)
      as (Q & P & -> & HQ & HP & HQz & HPz & Hrec).
    - intros n Q P qn pn Hn HQ HP Hqn Hpn Hshq Hshp.
      destruct (hamiltonian_SE_step (row_shape d) N t_0 h d_qH d_pH n Q P qn pn)
        as (qv & pv & Hb & Hqv & Hpv & HR); try done.
      rewrite !getT_time_grid in HR by lia. by exists qv, pv.
    - exists Q, P. by rewrite HQz, HPz, !lookup_initial_0. }
  destruct (String.eqb method "SV"); simpl; [|done].
  intros _ Hdq Hdp.
  destruct (hamiltonian_loop (row_shape d) N
              (hamiltonian_SV d_qH d_pH h (time_grid t_0 h N))
              (λ n qn pn qv pv,
                 hamiltonian_SV_rel d_qH d_pH h (time_at t_0 h n) qn pn qv pv)
              (initial d N q_0) (initial d N p_0) HQ0 HP0)
    as (Q & P & -> & HQ & HP & HQz & HPz & Hrec).
  - intros n Q P qn pn Hn HQ HP Hqn Hpn Hshq Hshp.
    destruct (hamiltonian_SV_step (row_shape d) N t_0 h d_qH d_pH n Q P qn pn)
      as (qv & pv & Hb & Hqv & Hpv & k1 & HR); try done.
    rewrite !getT_time_grid in HR by lia. exists qv, pv.
    repeat (split; [done|]). by exists k1.
  - exists Q, P. by rewrite HQz, HPz, !lookup_initial_0.
Qed.

End HamiltonianTraces.

(** ** The schemes of [dynamics_solve], as coded *)

Section DynamicsSchemes.
Context {R : Type} `{Num R}.

#[local] Abbreviation value := (value R).
#[local] Abbreviation pyfun := (pyfun R).

(** X1: with [method = "Euler"], on a well-shaped initial state and
    derivative function, [dynamics_solve] returns [T] and [S] with
    [S[n+1] = S[n] + h * f(T[n], S[n])] for every [n < N]. *)
Theorem dynamics_solve_Euler_recurrence (f : pyfun) D t_0 (s_0 : value) h N :
  (1 ≤ D)%Z → shape_of s_0 = row_shape D → field_ok (row_shape D) f →
  ∃ T S,
    dynamics_solve f D t_0 s_0 h N "Euler" = Some (T, S)
    ∧ ∀ n, n < N →
        ∃ tn sn sn1,
          T !! n = Some tn ∧ S !! n = Some sn ∧ S !! (n + 1) = Some sn1 ∧
          Some sn ⊕ sc h ⊗ call2 f (sc tn) (Some sn) = Some sn1.
Proof.
  intros HD Hs Hf.
  destruct (dynamics_solve_trace f D t_0 s_0 h N "Euler" HD Hs eq_refl Hf)
    as (S & -> & _ & _ & Hrec).
  exists (time_grid t_0 h N), S. split; [done|]. intros n Hn.
  destruct (Hrec n Hn) as (sn & sn1 & Hsn & Hsn1 & HR).
  exists (time_at t_0 h n), sn, sn1.
  split; [apply lookup_time_grid; lia|]. done.
Qed.

(** X2: with [method = "RK2"], for every [n < N]:
    [k1 = h * f(T[n], S[n])], [k2 = h * f(T[n] + .5*h, S[n] + .5*k1)] and
    [S[n+1] = S[n] + k2]. *)
Theorem dynamics_solve_RK2_recurrence (f : pyfun) D t_0 (s_0 : value) h N :
  (1 ≤ D)%Z → shape_of s_0 = row_shape D → field_ok (row_shape D) f →
  ∃ T S,
    dynamics_solve f D t_0 s_0 h N "RK2" = Some (T, S)
    ∧ ∀ n, n < N →
        ∃ tn sn sn1 k1 k2,
          T !! n = Some tn ∧ S !! n = Some sn ∧ S !! (n + 1) = Some sn1 ∧
          sc h ⊗ call2 f (sc tn) (Some sn) = Some k1 ∧
          sc h ⊗ call2 f (sc tn ⊕ sc lit_half ⊗ sc h)
                         (Some sn ⊕ sc lit_half ⊗ Some k1) = Some k2 ∧
          Some sn ⊕ Some k2 = Some sn1.
Proof.
  intros HD Hs Hf.
  destruct (dynamics_solve_trace f D t_0 s_0 h N "RK2" HD Hs eq_refl Hf)
    as (S & -> & _ & _ & Hrec).
  exists (time_grid t_0 h N), S. split; [done|]. intros n Hn.
  destruct (Hrec n Hn) as (sn & sn1 & Hsn & Hsn1 & k1 & k2 & HR).
  exists (time_at t_0 h n), sn, sn1, k1, k2.
  split; [apply lookup_time_grid; lia|]. done.
Qed.

(** X3: with [method = "RK4"], for every [n < N]:
    [k1 = h * f(T[n], S[n])], [k2 = h * f(T[n] + .5*h, S[n] + .5*k1)],
    [k3 = h * f(T[n] + .5*h, S[n] + .5*k2)], [k4 = h * f(T[n], S[n] + k3)]
    -- the fourth stage at time [T[n]] -- and
    [S[n+1] = S[n] + (1/6)*(k1 + 2*k2 + 2*k3 + k4)]. *)
Theorem dynamics_solve_RK4_recurrence (f : pyfun) D t_0 (s_0 : value) h N :
  (1 ≤ D)%Z → shape_of s_0 = row_shape D → field_ok (row_shape D) f →
  ∃ T S,
    dynamics_solve f D t_0 s_0 h N "RK4" = Some (T, S)
    ∧ ∀ n, n < N →
        ∃ tn sn sn1 k1 k2 k3 k4,
          T !! n = Some tn ∧ S !! n = Some sn ∧ S !! (n + 1) = Some sn1 ∧
          sc h ⊗ call2 f (sc tn) (Some sn) = Some k1 ∧
          sc h ⊗ call2 f (sc tn ⊕ sc lit_half ⊗ sc h)
                         (Some sn ⊕ sc lit_half ⊗ Some k1) = Some k2 ∧
          sc h ⊗ call2 f (sc tn ⊕ sc lit_half ⊗ sc h)
                         (Some sn ⊕ sc lit_half ⊗ Some k2) = Some k3 ∧
          sc h ⊗ call2 f (sc tn) (Some sn ⊕ Some k3) = Some k4 ∧
          Some sn ⊕ sc (rdiv (of_int 1) (of_int 6))
                    ⊗ (Some k1 ⊕ sc (of_int 2) ⊗ Some k2
                                ⊕ sc (of_int 2) ⊗ Some k3 ⊕ Some k4)
          = Some sn1.
Proof.
  intros HD Hs Hf.
  destruct (dynamics_solve_trace f D t_0 s_0 h N "RK4" HD Hs eq_refl Hf)
    as (S & -> & _ & _ & Hrec).
  exists (time_grid t_0 h N), S. split; [done|]. intros n Hn.
  destruct (Hrec n Hn) as (sn & sn1 & Hsn & Hsn1 & k1 & k2 & k3 & k4 & HR).
  exists (time_at t_0 h n), sn, sn1, k1, k2, k3, k4.
  split; [apply lookup_time_grid; lia|]. done.
Qed.

End DynamicsSchemes.

(** ** The two-argument schemes of [hamiltonian_solve], as coded *)

Section HamiltonianSchemes.
Context {R : Type} `{Num R}.

#[local] Abbreviation value := (value R).
#[local] Abbreviation pyfun := (pyfun R).

(** X4: with [method = "Euler"], on well-shaped inputs with [d_qH], [d_pH]
    accepting [(q, p)], for every [n < N]:
    [Q[n+1] = Q[n] + h * d_pH(Q[n], P[n])] and
    [P[n+1] = P[n] - h * d_qH(Q[n], P[n])], both functions at the same
    point [(Q[n], P[n])]. *)
Theorem hamiltonian_solve_Euler_recurrence (d_qH d_pH : pyfun) d t_0
    (q_0 p_0 : value) h N K m :
  (1 ≤ d)%Z →
  shape_of q_0 = row_shape d → shape_of p_0 = row_shape d →
  deriv_ok2 (row_shape d) d_qH → deriv_ok2 (row_shape d) d_pH →
  ∃ T Q P,
    hamiltonian_solve d_qH d_pH d t_0 q_0 p_0 h N "Euler" K m = Some (T, Q, P)
    ∧ ∀ n, n < N →
        ∃ qn pn qn1 pn1,
          Q !! n = Some qn ∧ P !! n = Some pn ∧
          Q !! (n + 1) = Some qn1 ∧ P !! (n + 1) = Some pn1 ∧
          Some qn ⊕ sc h ⊗ call2 d_pH (Some qn) (Some pn) = Some qn1 ∧
          Some pn ⊖ sc h ⊗ call2 d_qH (Some qn) (Some pn) = Some pn1.
Proof.
  intros Hd Hq Hp Hdq Hdp.
  destruct (hamiltonian_solve_trace d_qH d_pH d t_0 q_0 p_0 h N "Euler" K m
              Hd Hq Hp eq_refl Hdq Hdp)
    as (Q & P & -> & _ & _ & _ & _ & Hrec).
  exists (time_grid t_0 h N), Q, P. split; [done|]. intros n Hn.
  destruct (Hrec n Hn) as (qn & pn & qn1 & pn1 & ? & ? & ? & ? & HR).
  exists qn, pn, qn1, pn1. done.
Qed.

(** X5: with [method = "RK2"], for every [n < N]:
    [k1_Q = h * d_pH(Q[n], P[n])], [k1_P = -h * d_qH(Q[n], P[n])],
    [k2_Q = h * d_pH(Q[n] + k1_Q*.5, P[n] + k1_Q*.5)],
    [k2_P = -h * d_qH(Q[n] + k1_P*.5, P[n] + .5*k1_P)],
    [Q[n+1] = Q[n] + k2_Q] and [P[n+1] = P[n] + k2_P]: in the second stage
    [d_pH] is called with both offsets [k1_Q*.5] and [d_qH] with both
    offsets [k1_P*.5]. *)
Theorem hamiltonian_solve_RK2_recurrence (d_qH d_pH : pyfun) d t_0
    (q_0 p_0 : value) h N K m :
  (1 ≤ d)%Z →
  shape_of q_0 = row_shape d → shape_of p_0 = row_shape d →
  deriv_ok2 (row_shape d) d_qH → deriv_ok2 (row_shape d) d_pH →
  ∃ T Q P,
    hamiltonian_solve d_qH d_pH d t_0 q_0 p_0 h N "RK2" K m = Some (T, Q, P)
    ∧ ∀ n, n < N →
        ∃ qn pn qn1 pn1 k1_Q k1_P k2_Q k2_P,
          Q !! n = Some qn ∧ P !! n = Some pn ∧
          Q !! (n + 1) = Some qn1 ∧ P !! (n + 1) = Some pn1 ∧
          sc h ⊗ call2 d_pH (Some qn) (Some pn) = Some k1_Q ∧
          sc (rneg h) ⊗ call2 d_qH (Some qn) (Some pn) = Some k1_P ∧
          sc h ⊗ call2 d_pH (Some qn ⊕ Some k1_Q ⊗ sc lit_half)
                            (Some pn ⊕ Some k1_Q ⊗ sc lit_half) = Some k2_Q ∧
          sc (rneg h) ⊗ call2 d_qH (Some qn ⊕ Some k1_P ⊗ sc lit_half)
                                   (Some pn ⊕ sc lit_half ⊗ Some k1_P)
          = Some k2_P ∧
          Some qn ⊕ Some k2_Q = Some qn1 ∧
          Some pn ⊕ Some k2_P = Some pn1.
Proof.
  intros Hd Hq Hp Hdq Hdp.
  destruct (hamiltonian_solve_trace d_qH d_pH d t_0 q_0 p_0 h N "RK2" K m
              Hd Hq Hp eq_refl Hdq Hdp)
    as (Q & P & -> & _ & _ & _ & _ & Hrec).
  exists (time_grid t_0 h N), Q, P. split; [done|]. intros n Hn.
  destruct (Hrec n Hn)
    as (qn & pn & qn1 & pn1 & ? & ? & ? & ? & k1_Q & k1_P & k2_Q & k2_P & HR).
  exists qn, pn, qn1, pn1, k1_Q, k1_P, k2_Q, k2_P. done.
Qed.

(** X6: with [method = "RK4"], for every [n < N] the eight stages are
    those of lines 121-131: stages two and three call [d_pH] with both
    offsets taken from the previous [Q] stage and [d_qH] with both offsets
    from the previous [P] stage; stage four calls them at
    [(Q[n] + h, P[n] + k3_Q)] and [(Q[n] + h, P[n] + k3_P)], the step size
    added to the position; then
    [Q[n+1] = Q[n] + (1/6)*(k1_Q + 2*k2_Q + 2*k3_Q + k4_Q)] and
    [P[n+1] = P[n] + (1/6)*(k1_P + 2*k2_P + 2*k3_P + k4_P)]. *)
Theorem hamiltonian_solve_RK4_recurrence (d_qH d_pH : pyfun) d t_0
    (q_0 p_0 : value) h N K m :
  (1 ≤ d)%Z →
  shape_of q_0 = row_shape d → shape_of p_0 = row_shape d →
  deriv_ok2 (row_shape d) d_qH → deriv_ok2 (row_shape d) d_pH →
  ∃ T Q P,
    hamiltonian_solve d_qH d_pH d t_0 q_0 p_0 h N "RK4" K m = Some (T, Q, P)
    ∧ ∀ n, n < N →
        ∃ qn pn qn1 pn1 k1_Q k1_P k2_Q k2_P k3_Q k3_P k4_Q k4_P,
          Q !! n = Some qn ∧ P !! n = Some pn ∧
          Q !! (n + 1) = Some qn1 ∧ P !! (n + 1) = Some pn1 ∧
          sc h ⊗ call2 d_pH (Some qn) (Some pn) = Some k1_Q ∧
          sc (rneg h) ⊗ call2 d_qH (Some qn) (Some pn) = Some k1_P ∧
          sc h ⊗ call2 d_pH (Some qn ⊕ Some k1_Q ⊗ sc lit_half)
                            (Some pn ⊕ Some k1_Q ⊗ sc lit_half) = Some k2_Q ∧
          sc (rneg h) ⊗ call2 d_qH (Some qn ⊕ Some k1_P ⊗ sc lit_half)
                                   (Some pn ⊕ Some k1_P ⊗ sc lit_half)
          = Some k2_P ∧
          sc h ⊗ call2 d_pH (Some qn ⊕ Some k2_Q ⊗ sc lit_half)
                            (Some pn ⊕ Some k2_Q ⊗ sc lit_half) = Some k3_Q ∧
          sc (rneg h) ⊗ call2 d_qH (Some qn ⊕ Some k2_P ⊗ sc lit_half)
                                   (Some pn ⊕ Some k2_P ⊗ sc lit_half)
          = Some k3_P ∧
          sc h ⊗ call2 d_pH (Some qn ⊕ sc h) (Some pn ⊕ Some k3_Q)
          = Some k4_Q ∧
          sc (rneg h) ⊗ call2 d_qH (Some qn ⊕ sc h) (Some pn ⊕ Some k3_P)
          = Some k4_P ∧
          Some qn ⊕ sc (rdiv (of_int 1) (of_int 6))
                    ⊗ (Some k1_Q ⊕ sc (of_int 2) ⊗ Some k2_Q
                                  ⊕ sc (of_int 2) ⊗ Some k3_Q ⊕ Some k4_Q)
          = Some qn1 ∧
          Some pn ⊕ sc (rdiv (of_int 1) (of_int 6))
                    ⊗ (Some k1_P ⊕ sc (of_int 2) ⊗ Some k2_P
                                  ⊕ sc (of_int 2) ⊗ Some k3_P ⊕ Some k4_P)
          = Some pn1.
Proof.
  intros Hd Hq Hp Hdq Hdp.
  destruct (hamiltonian_solve_trace d_qH d_pH d t_0 q_0 p_0 h N "RK4" K m
              Hd Hq Hp eq_refl Hdq Hdp)
    as (Q & P & -> & _ & _ & _ & _ & Hrec).
  exists (time_grid t_0 h N), Q, P. split; [done|]. intros n Hn.
  destruct (Hrec n Hn)
    as (qn & pn & qn1 & pn1 & ? & ? & ? & ? &
        k1_Q & k1_P & k2_Q & k2_P & k3_Q & k3_P & k4_Q & k4_P & HR).
  exists qn, pn, qn1, pn1, k1_Q, k1_P, k2_Q, k2_P, k3_Q, k3_P, k4_Q, k4_P.
  done.
Qed.

End HamiltonianSchemes.

(** ** Shapes, horizons and failures *)

Ltac same_result :=
  repeat match goal with
         | H1 : ?e = Some ?a, H2 : ?e = Some ?b |- _ =>
             assert (a = b) by congruence; subst b; clear H2
         end.

Section Behaviour.
Context {R : Type} `{Num R}.

#[local] Abbreviation value := (value R).
#[local] Abbreviation pyfun := (pyfun R).

(** X7: on well-shaped inputs, whatever the scheme, every returned
    trajectory has [N + 1] entries and each entry has the shape fixed by
    [D] before the loops: a float when [D = 1], an array of length [D]
    when [D > 1]. *)
Theorem trajectories_keep_shape (f d_qH d_pH : pyfun) D t_0
    (s_0 q_0 p_0 : value) h N method K m :
  (1 ≤ D)%Z →
  shape_of s_0 = row_shape D →
  shape_of q_0 = row_shape D → shape_of p_0 = row_shape D →
  field_ok_for (row_shape D) method f →
  deriv_ok_for (row_shape D) method d_qH →
  deriv_ok_for (row_shape D) method d_pH →
  (∃ T S,
     dynamics_solve f D t_0 s_0 h N method = Some (T, S)
     ∧ length S = N + 1
     ∧ ∀ n v, S !! n = Some v → shape_of v = row_shape D)
  ∧ (∃ T Q P,
       hamiltonian_solve d_qH d_pH D t_0 q_0 p_0 h N method K m
       = Some (T, Q, P)
       ∧ length Q = N + 1 ∧ length P = N + 1
       ∧ ∀ n v, Q !! n = Some v ∨ P !! n = Some v →
           shape_of v = row_shape D).
Proof.
  intros HD Hs Hq Hp Hf Hdq Hdp. split.
  - destruct (dynamics_solve_run f D t_0 s_0 h N method HD Hs Hf)
      as (S & -> & [Hlen Hall] & _).
    exists (time_grid t_0 h N), S. split; [done|]. split; [done|].
    intros n v Hv.
    exact (Forall_lookup_1 (λ v, shape_of v = row_shape D) S n v Hall Hv).
  - destruct (hamiltonian_solve_run d_qH d_pH D t_0 q_0 p_0 h N method K m
                HD Hq Hp Hdq Hdp)
      as (Q & P & -> & [HlQ HaQ] & [HlP HaP] & _).
    exists (time_grid t_0 h N), Q, P. split; [done|].
    split; [done|]. split; [done|].
    intros n v [Hv|Hv].
    + exact (Forall_lookup_1 (λ v, shape_of v = row_shape D) Q n v HaQ Hv).
    + exact (Forall_lookup_1 (λ v, shape_of v = row_shape D) P n v HaP Hv).
Qed.

(** *** Longer runs extend shorter ones *)

Lemma dynamics_rel_functional method (f : pyfun) h tn (a b b' : value) :
  dynamics_rel method f h tn a b → dynamics_rel method f h tn a b' → b = b'.
Proof.
  unfold dynamics_rel.
  destruct (String.eqb method "Euler").
  { unfold dynamics_Euler_rel. intros. same_result. done. }
  destruct (String.eqb method "RK2").
  { intros (k1 & k2 & ? & ? & ?) (k1' & k2' & ? & ? & ?). same_result. done. }
  destruct (String.eqb method "RK4"); [|done].
  intros (k1 & k2 & k3 & k4 & ? & ? & ? & ? & ?)
         (k1' & k2' & k3' & k4' & ? & ? & ? & ? & ?).
  same_result. done.
Qed.

Lemma hamiltonian_rel_functional method (d_qH d_pH : pyfun) h tn
    (q p q1 p1 q1' p1' : value) :
  hamiltonian_rel method d_qH d_pH h tn q p q1 p1 →
  hamiltonian_rel method d_qH d_pH h tn q p q1' p1' →
  q1 = q1' ∧ p1 = p1'.
Proof.
  unfold hamiltonian_rel.
  destruct (String.eqb method "Euler").
  { intros [? ?] [? ?]. same_result. done. }
  destruct (String.eqb method "RK2").
  { intros (a1 & a2 & a3 & a4 & ? & ? & ? & ? & ? & ?)
           (b1 & b2 & b3 & b4 & ? & ? & ? & ? & ? & ?).
    same_result. done. }
  destruct (String.eqb method "RK4").
  { intros (a1 & a2 & a3 & a4 & a5 & a6 & a7 & a8
            & ? & ? & ? & ? & ? & ? & ? & ? & ? & ?)
           (b1 & b2 & b3 & b4 & b5 & b6 & b7 & b8
            & ? & ? & ? & ? & ? & ? & ? & ? & ? & ?).
    same_result. done. }
  destruct (String.eqb method "SE").
  { intros [? ?] [? ?]. same_result. done. }
  destruct (String.eqb method "SV"); [|done].
  intros (k & ? & ? & ?) (k' & ? & ? & ?). same_result. done.
Qed.

Lemma dynamics_prefix (Rel : nat → value → value → Prop)
    (S S' : list value) N :
  (∀ n a b b', Rel n a b → Rel n a b' → b = b') →
  S !! 0 = S' !! 0 →
  (∀ n, n < N →
     ∃ sn sn1, S !! n = Some sn ∧ S !! (n + 1) = Some sn1 ∧ Rel n sn sn1) →
  (∀ n, n < N →
     ∃ sn sn1, S' !! n = Some sn ∧ S' !! (n + 1) = Some sn1 ∧ Rel n sn sn1) →
  ∀ n, n ≤ N → S !! n = S' !! n.
Proof.
  intros Hfun H0 Hrec Hrec' n. induction n as [|n IH]; intros Hn; [done|].
  destruct (Hrec n) as (sn & sn1 & Hsn & Hsn1 & HR); [lia|].
  destruct (Hrec' n) as (sn' & sn1' & Hsn' & Hsn1' & HR'); [lia|].
  assert (sn = sn') as <- by (rewrite IH in Hsn by lia; congruence).
  replace (Datatypes.S n) with (n + 1) by lia.
  rewrite Hsn1, Hsn1'. f_equal. by eapply Hfun.
Qed.

Lemma hamiltonian_prefix (Rel : nat → value → value → value → value → Prop)
    (Q P Q' P' : list value) N :
  (∀ n q p q1 p1 q1' p1',
     Rel n q p q1 p1 → Rel n q p q1' p1' → q1 = q1' ∧ p1 = p1') →
  Q !! 0 = Q' !! 0 → P !! 0 = P' !! 0 →
  (∀ n, n < N →
     ∃ qn pn qn1 pn1,
       Q !! n = Some qn ∧ P !! n = Some pn ∧
       Q !! (n + 1) = Some qn1 ∧ P !! (n + 1) = Some pn1 ∧
       Rel n qn pn qn1 pn1) →
  (∀ n, n < N →
     ∃ qn pn qn1 pn1,
       Q' !! n = Some qn ∧ P' !! n = Some pn ∧
       Q' !! (n + 1) = Some qn1 ∧ P' !! (n + 1) = Some pn1 ∧
       Rel n qn pn qn1 pn1) →
  ∀ n, n ≤ N → Q !! n = Q' !! n ∧ P !! n = P' !! n.
Proof.
  intros Hfun HQ0 HP0 Hrec Hrec' n.
  induction n as [|n IH]; intros Hn; [done|].
  destruct (Hrec n) as (qn & pn & qn1 & pn1 & Hq & Hp & Hq1 & Hp1 & HR); [lia|].
  destruct (Hrec' n)
    as (qn' & pn' & qn1' & pn1' & Hq' & Hp' & Hq1' & Hp1' & HR'); [lia|].
  destruct IH as [IHQ IHP]; [lia|].
  assert (qn = qn') as <- by (rewrite IHQ in Hq; congruence).
  assert (pn = pn') as <- by (rewrite IHP in Hp; congruence).
  replace (Datatypes.S n) with (n + 1) by lia.
  rewrite Hq1, Hp1, Hq1', Hp1'.
  destruct (Hfun n qn pn qn1 pn1 qn1' pn1' HR HR') as [-> ->]. done.
Qed.

(** X8: on well-shaped inputs, a run of [dynamics_solve] with more steps
    extends the run with fewer steps: with [N ≤ N'] and everything else
    equal, the two results agree on [T[n]] and [S[n]] for every [n ≤ N]. *)
Theorem dynamics_solve_horizon (f : pyfun) D t_0 (s_0 : value) h N N' method :
  (1 ≤ D)%Z → shape_of s_0 = row_shape D →
  field_ok_for (row_shape D) method f →
  N ≤ N' →
  ∃ T S T' S',
    dynamics_solve f D t_0 s_0 h N method = Some (T, S)
    ∧ dynamics_solve f D t_0 s_0 h N' method = Some (T', S')
    ∧ ∀ n, n ≤ N → T !! n = T' !! n ∧ S !! n = S' !! n.
Proof.
  intros HD Hs Hf HN.
  destruct (is_one_of ["Euler"; "RK2"; "RK4"] method) eqn:Hm.
  - unfold field_ok_for in Hf. rewrite Hm in Hf.
    destruct (dynamics_solve_trace f D t_0 s_0 h N method HD Hs Hm Hf)
      as (S & -> & _ & HS0 & Hrec).
    destruct (dynamics_solve_trace f D t_0 s_0 h N' method HD Hs Hm Hf)
      as (S' & -> & _ & HS0' & Hrec').
    exists (time_grid t_0 h N), S, (time_grid t_0 h N'), S'.
    split; [done|]. split; [done|]. intros n Hn.
    split; [by rewrite !lookup_time_grid by lia|].
    apply (dynamics_prefix
             (λ n a b, dynamics_rel method f h (time_at t_0 h n) a b) S S' N);
      [|congruence|done| |done].
    + intros k a b b'. apply dynamics_rel_functional.
    + intros k Hk. apply Hrec'. lia.
  - rewrite !dynamics_solve_unfold by done.
    unfold is_one_of in Hm. simpl in Hm.
    repeat (apply orb_false_elim in Hm as [? Hm]).
    repeat match goal with Hx : String.eqb _ _ = false |- _ =>
             rewrite Hx; clear Hx end.
    simpl. eexists _, _, _, _. split; [done|]. split; [done|].
    intros n Hn. split; [by rewrite !lookup_time_grid by lia|].
    destruct n as [|n]; [by rewrite !lookup_initial_0|].
    by rewrite !lookup_initial_pos by lia.
Qed.

(** X9: the same for [hamiltonian_solve]: with [N ≤ N'], the two results
    agree on [T[n]], [Q[n]] and [P[n]] for every [n ≤ N]. *)
Theorem hamiltonian_solve_horizon (d_qH d_pH : pyfun) d t_0
    (q_0 p_0 : value) h N N' method K m :
  (1 ≤ d)%Z →
  shape_of q_0 = row_shape d → shape_of p_0 = row_shape d →
  deriv_ok_for (row_shape d) method d_qH →
  deriv_ok_for (row_shape d) method d_pH →
  N ≤ N' →
  ∃ T Q P T' Q' P',
    hamiltonian_solve d_qH d_pH d t_0 q_0 p_0 h N method K m = Some (T, Q, P)
    ∧ hamiltonian_solve d_qH d_pH d t_0 q_0 p_0 h N' method K m
      = Some (T', Q', P')
    ∧ ∀ n, n ≤ N →
        T !! n = T' !! n ∧ Q !! n = Q' !! n ∧ P !! n = P' !! n.
Proof.
  intros Hd Hq Hp Hdq Hdp HN.
  destruct (is_one_of ["Euler"; "RK2"; "RK4"; "SE"; "SV"] method) eqn:Hm.
  - destruct (hamiltonian_solve_trace d_qH d_pH d t_0 q_0 p_0 h N method K m
                Hd Hq Hp Hm Hdq Hdp)
      as (Q & P & -> & _ & _ & HQ0 & HP0 & Hrec).
    destruct (hamiltonian_solve_trace d_qH d_pH d t_0 q_0 p_0 h N' method K m
                Hd Hq Hp Hm Hdq Hdp)
      as (Q' & P' & -> & _ & _ & HQ0' & HP0' & Hrec').
    exists (time_grid t_0 h N), Q, P, (time_grid t_0 h N'), Q', P'.
    split; [done|]. split; [done|]. intros n Hn.
    split; [by rewrite !lookup_time_grid by lia|].
    apply (hamiltonian_prefix
             (λ n q p q1 p1,
                hamiltonian_rel method d_qH d_pH h (time_at t_0 h n) q p q1 p1)
             Q P Q' P' N); [|congruence|congruence|done| |done].
    + intros k q p q1 p1 q1' p1'. apply hamiltonian_rel_functional.
    + intros k Hk. apply Hrec'. lia.
  - rewrite !hamiltonian_solve_unfold by done.
    unfold is_one_of in Hm. simpl in Hm.
    repeat (apply orb_false_elim in Hm as [? Hm]).
    repeat match goal with Hx : String.eqb _ _ = false |- _ =>
             rewrite Hx; clear Hx end.
    simpl. eexists _, _, _, _, _, _. split; [done|]. split; [done|].
    intros n Hn. split; [by rewrite !lookup_time_grid by lia|].
    destruct n as [|n]; [by rewrite !lookup_initial_0|].
    by rewrite !lookup_initial_pos by lia.
Qed.

End Behaviour.

(** ** Calls that raise *)

Section Failures.
Context {R : Type} `{Num R}.

#[local] Abbreviation value := (value R).
#[local] Abbreviation pyfun := (pyfun R).

(** X10: with a dimension below one neither [if] binds the buffers, and
    both solvers raise, whatever the other arguments. *)
Theorem dimension_below_one_raises (f d_qH d_pH : pyfun) D t_0
    (s_0 q_0 p_0 : value) h N method K m :
  (D < 1)%Z →
  dynamics_solve f D t_0 s_0 h N method = None
  ∧ hamiltonian_solve d_qH d_pH D t_0 q_0 p_0 h N method K m = None.
Proof.
  intros HD. unfold dynamics_solve, hamiltonian_solve, buffer.
  destruct (Z.eqb_spec D 1) as [?|_]; [lia|].
  destruct (Z.ltb_spec 1 D) as [?|_]; [lia|]. done.
Qed.

Lemma setitem_mismatch D N (xs : list R) :
  (1 ≤ D)%Z → length xs ≠ 1 → (D = 1%Z ∨ length xs ≠ Z.to_nat D) →
  ∀ S0, buffer D N = Some S0 → setitem S0 0 (Array xs) = None.
Proof.
  intros HD H1 HDx S0 HS0.
  destruct (buffer_ok D N HD) as [Hb _]. rewrite Hb in HS0.
  injection HS0 as <-. unfold setitem.
  rewrite lookup_replicate_2 by lia. simpl.
  unfold zero_state. destruct (Z.eqb_spec D 1) as [->|Hne]; simpl.
  - destruct xs as [|x [|y xs]]; simpl in *; done.
  - rewrite length_replicate.
    destruct HDx as [?|HDx]; [done|].
    destruct (Nat.eqb_spec (length xs) (Z.to_nat D)); [done|].
    destruct xs as [|x [|y xs]]; simpl in *; done.
Qed.

(** X11: an initial state that is an array of the wrong length (not [D]
    when [D > 1], any array when [D = 1], arrays of length one apart) makes
    the store into entry 0 raise: [dynamics_solve] raises on such an
    [s_0], and [hamiltonian_solve] on such a [p_0] or such a [q_0],
    whatever the scheme and the derivative functions. *)
Theorem initial_state_mismatch_raises (f d_qH d_pH : pyfun) D t_0
    (xs : list R) (other : value) h N method K m :
  (1 ≤ D)%Z → length xs ≠ 1 → (D = 1%Z ∨ length xs ≠ Z.to_nat D) →
  dynamics_solve f D t_0 (Array xs) h N method = None
  ∧ hamiltonian_solve d_qH d_pH D t_0 other (Array xs) h N method K m = None
  ∧ hamiltonian_solve d_qH d_pH D t_0 (Array xs) other h N method K m = None.
Proof.
  intros HD H1 HDx.
  pose proof (setitem_mismatch D N xs HD H1 HDx) as Hset.
  unfold dynamics_solve, hamiltonian_solve.
  destruct (buffer D N) as [S0|]; [|done]. simpl.
  rewrite (Hset S0 eq_refl). split; [done|]. split; [done|].
  by destruct (setitem S0 0 other).
Qed.

Lemma for_range_first {St} (body : nat → St → option St) N (st : St) :
  1 ≤ N → body 0 st = None → for_range N body st = None.
Proof.
  intros HN Hb. destruct N as [|N]; [lia|].
  unfold for_range. simpl. by rewrite Hb.
Qed.

(** X12: with a recognised scheme and at least one step, an exception of
    [f] at the first point [(T[0], s_0)] is not caught: [dynamics_solve]
    raises. *)
Theorem dynamics_solve_propagates_exception (f : pyfun) D t_0 (s_0 : value)
    h N method :
  (1 ≤ D)%Z → shape_of s_0 = row_shape D →
  is_one_of ["Euler"; "RK2"; "RK4"] method = true →
  1 ≤ N →
  f [Scalar (time_at t_0 h 0); s_0] = None →
  dynamics_solve f D t_0 s_0 h N method = None.
Proof.
  intros HD Hs Hm HN Hf. rewrite dynamics_solve_unfold by done.
  revert Hm. unfold is_one_of. simpl.
  assert (call2 f (getT (time_grid t_0 h N) 0) (initial D N s_0 !! 0) = None)
    as Hcall.
  { rewrite lookup_initial_0, getT_time_grid by lia. exact Hf. }
  destruct (String.eqb method "Euler"); simpl.
  { intros _. rewrite for_range_first; [done|done|].
    unfold dynamics_Euler. rewrite Hcall. simpl.
    by destruct (initial D N s_0 !! 0). }
  destruct (String.eqb method "RK2"); simpl.
  { intros _. rewrite for_range_first; [done|done|].
    unfold dynamics_RK2. by rewrite Hcall. }
  destruct (String.eqb method "RK4"); simpl; [|done].
  intros _. rewrite for_range_first; [done|done|].
  unfold dynamics_RK4. by rewrite Hcall.
Qed.

(** X13: the calling convention of the derivative functions depends on the
    scheme.  With at least one step, functions of exactly three parameters
    make [hamiltonian_solve] raise under "Euler", "RK2" and "RK4", which
    call them with [(q, p)]; functions of exactly two parameters make it
    raise under "SE" and "SV", which call them with [(q, p, t)]. *)
Theorem hamiltonian_solve_calling_convention (d_qH d_pH : pyfun) d t_0
    (q_0 p_0 : value) h N method K m :
  (1 ≤ d)%Z →
  shape_of q_0 = row_shape d → shape_of p_0 = row_shape d →
  1 ≤ N →
  (is_one_of ["Euler"; "RK2"; "RK4"] method = true →
   rejects_two_arguments d_qH → rejects_two_arguments d_pH →
   hamiltonian_solve d_qH d_pH d t_0 q_0 p_0 h N method K m = None)
  ∧ (is_one_of ["SE"; "SV"] method = true →
     rejects_three_arguments d_qH → rejects_three_arguments d_pH →
     hamiltonian_solve d_qH d_pH d t_0 q_0 p_0 h N method K m = None).
Proof.
  intros Hd Hq Hp HN.
  rewrite hamiltonian_solve_unfold by done.
  unfold is_one_of. simpl. split.
  - intros Hm Hdq Hdp. revert Hm.
    assert (call2 d_pH (initial d N q_0 !! 0) (initial d N p_0 !! 0) = None)
      as Hcall.
    { rewrite !lookup_initial_0. apply Hdp. }
    destruct (String.eqb method "Euler"); simpl.
    { intros _. rewrite for_range_first; [done|done|].
      unfold hamiltonian_Euler. rewrite Hcall. simpl.
      by destruct (initial d N q_0 !! 0). }
    destruct (String.eqb method "RK2"); simpl.
    { intros _. rewrite for_range_first; [done|done|].
      unfold hamiltonian_RK2. by rewrite Hcall. }
    destruct (String.eqb method "RK4"); simpl; [|done].
    intros _. rewrite for_range_first; [done|done|].
    unfold hamiltonian_RK4. by rewrite Hcall.
  - intros Hm Hdq Hdp. revert Hm.
    destruct (String.eqb_spec method "Euler") as [->|_]; [done|].
    destruct (String.eqb_spec method "RK2") as [->|_]; [done|].
    destruct (String.eqb_spec method "RK4") as [->|_]; [done|].
    destruct (String.eqb method "SE"); simpl.
    { intros _. rewrite for_range_first; [done|done|].
      unfold hamiltonian_SE.
      rewrite !lookup_initial_0, getT_time_grid by lia. simpl.
      by rewrite Hdp. }
    destruct (String.eqb method "SV"); simpl; [|done].
    intros _. rewrite for_range_first; [done|done|].
    unfold hamiltonian_SV.
    rewrite !lookup_initial_0, getT_time_grid by lia. simpl.
    by rewrite Hdq.
Qed.

(** *** Broadcast of a scalar initial state *)

Lemma setitem_scalar_row D N x :
  (1 < D)%Z →
  ∀ S0 : list value, buffer D N = Some S0 →
    setitem S0 0 (Scalar x) = setitem S0 0 (Array (replicate (Z.to_nat D) x)).
Proof.
  intros HD S0 HS0.
  destruct (buffer_ok D N) as [Hb _]; [lia|]. rewrite Hb in HS0.
  injection HS0 as <-. unfold setitem.
  rewrite lookup_replicate_2 by lia. simpl.
  unfold zero_state. destruct (Z.eqb_spec D 1) as [?|_]; [lia|]. simpl.
  by rewrite !length_replicate, Nat.eqb_refl.
Qed.

(** X14: with [D > 1], a float given as initial state is copied to every
    column of entry 0: the call is the one with the constant array of
    length [D], for both solvers and every scheme. *)
Theorem scalar_initial_state_is_broadcast (f d_qH d_pH : pyfun) D t_0
    (x y : R) h N method K m :
  (1 < D)%Z →
  dynamics_solve f D t_0 (Scalar x) h N method
  = dynamics_solve f D t_0 (Array (replicate (Z.to_nat D) x)) h N method
  ∧ hamiltonian_solve d_qH d_pH D t_0 (Scalar x) (Scalar y) h N method K m
    = hamiltonian_solve d_qH d_pH D t_0
        (Array (replicate (Z.to_nat D) x)) (Array (replicate (Z.to_nat D) y))
        h N method K m.
Proof.
  intros HD. unfold dynamics_solve, hamiltonian_solve.
  destruct (buffer D N) as [S0|] eqn:Hb; [|done]. simpl.
  by rewrite !(setitem_scalar_row D N _ HD S0 Hb).
Qed.

End Failures.

(** ** Autonomous systems *)

Section Autonomous.
Context {R : Type} `{Num R}.

#[local] Abbreviation value := (value R).
#[local] Abbreviation pyfun := (pyfun R).

Lemma call2_time (f : pyfun) t t' (X : option value) :
  autonomous f → call2 f (sc t) X = call2 f (sc t') X.
Proof. intros Hf. destruct X as [s|]; simpl; [apply Hf | done]. Qed.

Lemma call3_time (g : pyfun) t t' (A B : option value) :
  ignores_time g → call3 g A B (sc t) = call3 g A B (sc t').
Proof.
  intros Hg. destruct A as [q|], B as [p|]; simpl; by try apply Hg.
Qed.

Lemma dynamics_rel_time method (f : pyfun) h tn tn' (a b : value) :
  autonomous f →
  dynamics_rel method f h tn a b → dynamics_rel method f h tn' a b.
Proof.
  intros Hf. unfold dynamics_rel.
  destruct (String.eqb method "Euler").
  { unfold dynamics_Euler_rel. by rewrite (call2_time f tn' tn). }
  destruct (String.eqb method "RK2").
  { intros (k1 & k2 & H1 & H2 & H3). exists k1, k2.
    change (sc tn' ⊕ sc lit_half ⊗ sc h)
      with (sc (radd tn' (rmul lit_half h))).
    rewrite (call2_time f (radd tn' (rmul lit_half h))
               (radd tn (rmul lit_half h))) by done.
    rewrite (call2_time f tn' tn) by done. done. }
  destruct (String.eqb method "RK4"); [|done].
  intros (k1 & k2 & k3 & k4 & H1 & H2 & H3 & H4 & H5). exists k1, k2, k3, k4.
  change (sc tn' ⊕ sc lit_half ⊗ sc h)
    with (sc (radd tn' (rmul lit_half h))).
  rewrite !(call2_time f (radd tn' (rmul lit_half h))
              (radd tn (rmul lit_half h))) by done.
  rewrite !(call2_time f tn' tn) by done. done.
Qed.

Lemma hamiltonian_rel_time method (d_qH d_pH : pyfun) h tn tn'
    (q p q1 p1 : value) :
  ignores_time d_qH → ignores_time d_pH →
  hamiltonian_rel method d_qH d_pH h tn q p q1 p1 →
  hamiltonian_rel method d_qH d_pH h tn' q p q1 p1.
Proof.
  intros Hdq Hdp. unfold hamiltonian_rel.
  destruct (String.eqb method "Euler"); [done|].
  destruct (String.eqb method "RK2"); [done|].
  destruct (String.eqb method "RK4"); [done|].
  destruct (String.eqb method "SE").
  { unfold hamiltonian_SE_rel.
    rewrite (call3_time d_pH tn' tn), (call3_time d_qH tn' tn) by done.
    done. }
  destruct (String.eqb method "SV"); [|done].
  intros (k1 & H1 & H2 & H3). exists k1.
  rewrite (call3_time d_pH tn' tn), !(call3_time d_qH tn' tn) by done.
  done.
Qed.

Lemma wf_ext sh N (S S' : list value) :
  wf sh N S → wf sh N S' → (∀ n, n ≤ N → S !! n = S' !! n) → S = S'.
Proof.
  intros [Hl _] [Hl' _] Heq. apply list_eq. intros i.
  destruct (Nat.le_gt_cases i N) as [Hi|Hi]; [by apply Heq|].
  by rewrite !lookup_ge_None_2 by lia.
Qed.

(** X15: for an autonomous system ([f(t, s)] independent of [t]) and
    well-shaped inputs, the states [dynamics_solve] returns do not depend
    on the initial time [t_0]. *)
Theorem dynamics_solve_autonomous (f : pyfun) D t_0 t_0' (s_0 : value)
    h N method :
  (1 ≤ D)%Z → shape_of s_0 = row_shape D →
  field_ok_for (row_shape D) method f →
  autonomous f →
  ∃ T T' S,
    dynamics_solve f D t_0 s_0 h N method = Some (T, S)
    ∧ dynamics_solve f D t_0' s_0 h N method = Some (T', S).
Proof.
  intros HD Hs Hf Haut.
  destruct (is_one_of ["Euler"; "RK2"; "RK4"] method) eqn:Hm.
  - unfold field_ok_for in Hf. rewrite Hm in Hf.
    destruct (dynamics_solve_trace f D t_0 s_0 h N method HD Hs Hm Hf)
      as (S & -> & HS & HS0 & Hrec).
    destruct (dynamics_solve_trace f D t_0' s_0 h N method HD Hs Hm Hf)
      as (S' & -> & HS' & HS0' & Hrec').
    exists (time_grid t_0 h N), (time_grid t_0' h N), S.
    split; [done|]. do 2 f_equal. symmetry.
    apply (wf_ext (row_shape D) N); [done|done|].
    apply (dynamics_prefix
             (λ n a b, dynamics_rel method f h (time_at t_0 h n) a b) S S' N);
      [|congruence|done|].
    + intros k a b b'. apply dynamics_rel_functional.
    + intros k Hk. destruct (Hrec' k Hk) as (sn & sn1 & ? & ? & HR).
      exists sn, sn1. split; [done|]. split; [done|].
      by apply (dynamics_rel_time method f h (time_at t_0' h k)).
  - rewrite !dynamics_solve_unfold by done.
    unfold is_one_of in Hm. simpl in Hm.
    repeat (apply orb_false_elim in Hm as [? Hm]).
    repeat match goal with Hx : String.eqb _ _ = false |- _ =>
             rewrite Hx; clear Hx end.
    simpl. by eexists _, _, _.
Qed.

(** X16: the positions and momenta [hamiltonian_solve] returns on
    well-shaped inputs do not depend on [t_0] when the derivative functions
    ignore their time argument; under "Euler", "RK2" and "RK4" the time is
    never passed, so this holds there for any functions of [(q, p)]. *)
Theorem hamiltonian_solve_autonomous (d_qH d_pH : pyfun) d t_0 t_0'
    (q_0 p_0 : value) h N method K m :
  (1 ≤ d)%Z →
  shape_of q_0 = row_shape d → shape_of p_0 = row_shape d →
  deriv_ok_for (row_shape d) method d_qH →
  deriv_ok_for (row_shape d) method d_pH →
  ignores_time d_qH → ignores_time d_pH →
  ∃ T T' Q P,
    hamiltonian_solve d_qH d_pH d t_0 q_0 p_0 h N method K m = Some (T, Q, P)
    ∧ hamiltonian_solve d_qH d_pH d t_0' q_0 p_0 h N method K m
      = Some (T', Q, P).
Proof.
  intros Hd Hq Hp Hdq Hdp Hiq Hip.
  destruct (is_one_of ["Euler"; "RK2"; "RK4"; "SE"; "SV"] method) eqn:Hm.
  - destruct (hamiltonian_solve_trace d_qH d_pH d t_0 q_0 p_0 h N method K m
                Hd Hq Hp Hm Hdq Hdp)
      as (Q & P & -> & HQ & HP & HQ0 & HP0 & Hrec).
    destruct (hamiltonian_solve_trace d_qH d_pH d t_0' q_0 p_0 h N method K m
                Hd Hq Hp Hm Hdq Hdp)
      as (Q' & P' & -> & HQ' & HP' & HQ0' & HP0' & Hrec').
    exists (time_grid t_0 h N), (time_grid t_0' h N), Q, P.
    split; [done|].
    assert (∀ n, n ≤ N → Q !! n = Q' !! n ∧ P !! n = P' !! n) as Heq.
    { apply (hamiltonian_prefix
               (λ n q p q1 p1,
                  hamiltonian_rel method d_qH d_pH h (time_at t_0 h n)
                    q p q1 p1) Q P Q' P' N); [|congruence|congruence|done|].
      + intros k q p q1 p1 q1' p1'. apply hamiltonian_rel_functional.
      + intros k Hk.
        destruct (Hrec' k Hk) as (qn & pn & qn1 & pn1 & ? & ? & ? & ? & HR).
        exists qn, pn, qn1, pn1. repeat (split; [done|]).
        by apply (hamiltonian_rel_time method d_qH d_pH h (time_at t_0' h k)). }
    assert (Q = Q') as <-.
    { apply (wf_ext (row_shape d) N); [done|done|]. intros n Hn.
      by apply Heq. }
    assert (P = P') as <-.
    { apply (wf_ext (row_shape d) N); [done|done|]. intros n Hn.
      by apply Heq. }
    done.
  - rewrite !hamiltonian_solve_unfold by done.
    unfold is_one_of in Hm. simpl in Hm.
    repeat (apply orb_false_elim in Hm as [? Hm]).
    repeat match goal with Hx : String.eqb _ _ = false |- _ =>
             rewrite Hx; clear Hx end.
    simpl. by eexists _, _, _, _.
Qed.

End Autonomous.

(** ** Euler on the coupled pair *)

Section Coupled.
Context {R : Type} `{Num R}.

#[local] Abbreviation value := (value R).
#[local] Abbreviation pyfun := (pyfun R).

Lemma scalar_of_shape (v : value) :
  shape_of v = ShScalar → ∃ x, v = Scalar x.
Proof. destruct v as [x|xs]; [by exists x | done]. Qed.

Lemma pair_of_shape (v : value) :
  shape_of v = ShArray 2 → ∃ q p, v = Array [q; p].
Proof.
  destruct v as [x|[|q [|p [|? xs]]]]; try done. intros _. by exists q, p.
Qed.

Lemma coupled_field_ok (d_qH d_pH : pyfun) :
  deriv_ok2 ShScalar d_qH → deriv_ok2 ShScalar d_pH →
  field_ok (ShArray 2) (coupled_field d_qH d_pH).
Proof.
  intros Hdq Hdp t s Hs. destruct (pair_of_shape s Hs) as (q & p & ->).
  destruct (Hdp (Scalar q) (Scalar p) eq_refl eq_refl) as (va & Hva & Hsa).
  destruct (Hdq (Scalar q) (Scalar p) eq_refl eq_refl) as (vb & Hvb & Hsb).
  destruct (scalar_of_shape va Hsa) as (a & ->).
  destruct (scalar_of_shape vb Hsb) as (b & ->).
  exists (Array [a; rneg b]). simpl. by rewrite Hva, Hvb.
Qed.

(** X17: for a one-dimensional system whose derivative functions take
    [(q, p)], in an arithmetic where [p - h*b = p + h*(-b)], the "Euler"
    scheme of [hamiltonian_solve] computes the trajectory that the "Euler"
    scheme of [dynamics_solve] computes on the coupled state [(q, p)] with
    [dq/dt = d_pH(q, p)] and [dp/dt = -d_qH(q, p)]: [S[n] = (Q[n], P[n])]
    for every [n] in [0, N]. *)
Theorem hamiltonian_Euler_is_coupled_Euler (d_qH d_pH : pyfun) t_0
    (q_0 p_0 : R) h N K m :
  (∀ p b, rsub p (rmul h b) = radd p (rmul h (rneg b))) →
  deriv_ok2 ShScalar d_qH → deriv_ok2 ShScalar d_pH →
  ∃ T Q P S,
    hamiltonian_solve d_qH d_pH 1 t_0 (Scalar q_0) (Scalar p_0) h N
      "Euler" K m = Some (T, Q, P)
    ∧ dynamics_solve (coupled_field d_qH d_pH) 2 t_0 (Array [q_0; p_0]) h N
        "Euler" = Some (T, S)
    ∧ ∀ n, n ≤ N →
        ∃ q p,
          Q !! n = Some (Scalar q) ∧ P !! n = Some (Scalar p)
          ∧ S !! n = Some (Array [q; p]).
Proof.
  intros Hlaw Hdq Hdp.
  destruct (hamiltonian_solve_trace d_qH d_pH 1 t_0 (Scalar q_0) (Scalar p_0)
              h N "Euler" K m) as (Q & P & -> & _ & _ & HQ0 & HP0 & Hham);
    [lia|done|done|done|done|done|].
  destruct (dynamics_solve_trace (coupled_field d_qH d_pH) 2 t_0
              (Array [q_0; p_0]) h N "Euler")
    as (S & -> & _ & HS0 & Hdyn);
    [lia|done|done|by apply coupled_field_ok|].
  exists (time_grid t_0 h N), Q, P, S. split; [done|]. split; [done|].
  intros n. induction n as [|n IH]; intros Hn.
  { by exists q_0, p_0. }
  destruct IH as (q & p & HQn & HPn & HSn); [lia|].
  destruct (Hham n) as (qn & pn & qn1 & pn1 & Hq & Hp & Hq1 & Hp1 & HR); [lia|].
  destruct (Hdyn n) as (sn & sn1 & Hs & Hs1 & HD); [lia|].
  rewrite HQn in Hq. rewrite HPn in Hp. rewrite HSn in Hs.
  injection Hq as <-. injection Hp as <-. injection Hs as <-.
  destruct (Hdp (Scalar q) (Scalar p) eq_refl eq_refl) as (va & Hva & Hsa).
  destruct (Hdq (Scalar q) (Scalar p) eq_refl eq_refl) as (vb & Hvb & Hsb).
  destruct (scalar_of_shape va Hsa) as (a & ->).
  destruct (scalar_of_shape vb Hsb) as (b & ->).
  destruct HR as [HRq HRp].
  cbn [binop sc call2 mbind option_bind] in HRq, HRp.
  rewrite Hva in HRq. rewrite Hvb in HRp. simpl in HRq, HRp.
  unfold dynamics_rel, dynamics_Euler_rel in HD. simpl in HD.
  rewrite Hva, Hvb in HD. simpl in HD.
  injection HRq as <-. injection HRp as <-. injection HD as <-.
  replace (Datatypes.S n) with (n + 1) by lia.
  exists (radd q (rmul h a)), (rsub p (rmul h b)).
  split; [done|]. split; [done|]. by rewrite Hs1, Hlaw.
Qed.

End Coupled.

(** ** Instances on the sample systems *)

Lemma linear_field_autonomous {R} : autonomous (R := R) linear_field.
Proof. intros t t' s. reflexivity. Qed.

Lemma oscillator_dqH_ignores_time {R} : ignores_time (R := R) oscillator_dqH.
Proof. intros q p t t'. reflexivity. Qed.

Lemma oscillator_dpH_ignores_time {R} : ignores_time (R := R) oscillator_dpH.
Proof. intros q p t t'. reflexivity. Qed.

Lemma Q_sub_is_add_neg (h p b : Q) :
  rsub p (rmul h b) = radd p (rmul h (rneg b)).
Proof.
  simpl. apply Qred_complete. rewrite !Qred_correct. ring.
Qed.

Lemma dynamics_solve_Euler_recurrence_witness :
  ∃ T S,
    dynamics_solve (R := Q) linear_field 1 0%Q (Scalar 1%Q) (1 # 10)%Q 4
      "Euler" = Some (T, S)
    ∧ ∀ n, n < 4 →
        ∃ tn sn sn1,
          T !! n = Some tn ∧ S !! n = Some sn ∧ S !! (n + 1) = Some sn1 ∧
          Some sn ⊕ sc (1 # 10)%Q ⊗ call2 linear_field (sc tn) (Some sn)
          = Some sn1.
Proof.
  apply (dynamics_solve_Euler_recurrence (R := Q)).
  - lia.
  - reflexivity.
  - exact (linear_field_ok _).
Defined.

Lemma dynamics_solve_RK2_recurrence_witness :
  ∃ T S,
    dynamics_solve (R := Q) linear_field 2 0%Q (Array [1%Q; 2%Q]) (1 # 10)%Q 4
      "RK2" = Some (T, S)
    ∧ ∀ n, n < 4 →
        ∃ tn sn sn1 k1 k2,
          T !! n = Some tn ∧ S !! n = Some sn ∧ S !! (n + 1) = Some sn1 ∧
          sc (1 # 10)%Q ⊗ call2 linear_field (sc tn) (Some sn) = Some k1 ∧
          sc (1 # 10)%Q
          ⊗ call2 linear_field (sc tn ⊕ sc lit_half ⊗ sc (1 # 10)%Q)
                               (Some sn ⊕ sc lit_half ⊗ Some k1) = Some k2 ∧
          Some sn ⊕ Some k2 = Some sn1.
Proof.
  apply (dynamics_solve_RK2_recurrence (R := Q)).
  - lia.
  - reflexivity.
  - exact (linear_field_ok _).
Defined.

Lemma dynamics_solve_RK4_recurrence_witness :
  ∃ T S,
    dynamics_solve (R := Q) clock_field 1 0%Q (Scalar 0%Q) 1%Q 2
      "RK4" = Some (T, S)
    ∧ ∀ n, n < 2 →
        ∃ tn sn sn1 k1 k2 k3 k4,
          T !! n = Some tn ∧ S !! n = Some sn ∧ S !! (n + 1) = Some sn1 ∧
          sc 1%Q ⊗ call2 clock_field (sc tn) (Some sn) = Some k1 ∧
          sc 1%Q ⊗ call2 clock_field (sc tn ⊕ sc lit_half ⊗ sc 1%Q)
                                    (Some sn ⊕ sc lit_half ⊗ Some k1)
          = Some k2 ∧
          sc 1%Q ⊗ call2 clock_field (sc tn ⊕ sc lit_half ⊗ sc 1%Q)
                                    (Some sn ⊕ sc lit_half ⊗ Some k2)
          = Some k3 ∧
          sc 1%Q ⊗ call2 clock_field (sc tn) (Some sn ⊕ Some k3) = Some k4 ∧
          Some sn ⊕ sc (rdiv (of_int 1) (of_int 6))
                    ⊗ (Some k1 ⊕ sc (of_int 2) ⊗ Some k2
                                ⊕ sc (of_int 2) ⊗ Some k3 ⊕ Some k4)
          = Some sn1.
Proof.
  apply (dynamics_solve_RK4_recurrence (R := Q)).
  - lia.
  - reflexivity.
  - intros t s Hs. by exists (Scalar t).
Defined.

Lemma hamiltonian_solve_Euler_recurrence_witness :
  ∃ T Qs Ps,
    hamiltonian_solve (R := Q) oscillator_dqH oscillator_dpH 1 0%Q
      (Scalar 0%Q) (Scalar 1%Q) (1 # 10)%Q 3 "Euler" 0%Q 0%Q
    = Some (T, Qs, Ps)
    ∧ ∀ n, n < 3 →
        ∃ qn pn qn1 pn1,
          Qs !! n = Some qn ∧ Ps !! n = Some pn ∧
          Qs !! (n + 1) = Some qn1 ∧ Ps !! (n + 1) = Some pn1 ∧
          Some qn ⊕ sc (1 # 10)%Q ⊗ call2 oscillator_dpH (Some qn) (Some pn)
          = Some qn1 ∧
          Some pn ⊖ sc (1 # 10)%Q ⊗ call2 oscillator_dqH (Some qn) (Some pn)
          = Some pn1.
Proof.
  apply (hamiltonian_solve_Euler_recurrence (R := Q)).
  - lia.
  - reflexivity.
  - reflexivity.
  - exact (oscillator_dqH_ok2 _).
  - exact (oscillator_dpH_ok2 _).
Defined.

Lemma hamiltonian_solve_RK2_recurrence_witness :
  ∃ T Qs Ps,
    hamiltonian_solve (R := Q) oscillator_dqH oscillator_dpH 1 0%Q
      (Scalar 0%Q) (Scalar 1%Q) 1%Q 1 "RK2" 0%Q 0%Q
    = Some (T, Qs, Ps)
    ∧ ∀ n, n < 1 →
        ∃ qn pn qn1 pn1 k1_Q k1_P k2_Q k2_P,
          Qs !! n = Some qn ∧ Ps !! n = Some pn ∧
          Qs !! (n + 1) = Some qn1 ∧ Ps !! (n + 1) = Some pn1 ∧
          sc 1%Q ⊗ call2 oscillator_dpH (Some qn) (Some pn) = Some k1_Q ∧
          sc (rneg 1%Q) ⊗ call2 oscillator_dqH (Some qn) (Some pn)
          = Some k1_P ∧
          sc 1%Q ⊗ call2 oscillator_dpH (Some qn ⊕ Some k1_Q ⊗ sc lit_half)
                                       (Some pn ⊕ Some k1_Q ⊗ sc lit_half)
          = Some k2_Q ∧
          sc (rneg 1%Q)
          ⊗ call2 oscillator_dqH (Some qn ⊕ Some k1_P ⊗ sc lit_half)
                                 (Some pn ⊕ sc lit_half ⊗ Some k1_P)
          = Some k2_P ∧
          Some qn ⊕ Some k2_Q = Some qn1 ∧
          Some pn ⊕ Some k2_P = Some pn1.
Proof.
  apply (hamiltonian_solve_RK2_recurrence (R := Q)).
  - lia.
  - reflexivity.
  - reflexivity.
  - exact (oscillator_dqH_ok2 _).
  - exact (oscillator_dpH_ok2 _).
Defined.

Lemma hamiltonian_solve_RK4_recurrence_witness :
  ∃ T Qs Ps,
    hamiltonian_solve (R := Q) oscillator_dqH oscillator_dpH 2 0%Q
      (Array [0%Q; 1%Q]) (Array [1%Q; 0%Q]) (1 # 10)%Q 2 "RK4" 0%Q 0%Q
    = Some (T, Qs, Ps)
    ∧ ∀ n, n < 2 →
        ∃ qn pn qn1 pn1 k1_Q k1_P k2_Q k2_P k3_Q k3_P k4_Q k4_P,
          Qs !! n = Some qn ∧ Ps !! n = Some pn ∧
          Qs !! (n + 1) = Some qn1 ∧ Ps !! (n + 1) = Some pn1 ∧
          sc (1 # 10)%Q ⊗ call2 oscillator_dpH (Some qn) (Some pn)
          = Some k1_Q ∧
          sc (rneg (1 # 10)%Q) ⊗ call2 oscillator_dqH (Some qn) (Some pn)
          = Some k1_P ∧
          sc (1 # 10)%Q
          ⊗ call2 oscillator_dpH (Some qn ⊕ Some k1_Q ⊗ sc lit_half)
                                 (Some pn ⊕ Some k1_Q ⊗ sc lit_half)
          = Some k2_Q ∧
          sc (rneg (1 # 10)%Q)
          ⊗ call2 oscillator_dqH (Some qn ⊕ Some k1_P ⊗ sc lit_half)
                                 (Some pn ⊕ Some k1_P ⊗ sc lit_half)
          = Some k2_P ∧
          sc (1 # 10)%Q
          ⊗ call2 oscillator_dpH (Some qn ⊕ Some k2_Q ⊗ sc lit_half)
                                 (Some pn ⊕ Some k2_Q ⊗ sc lit_half)
          = Some k3_Q ∧
          sc (rneg (1 # 10)%Q)
          ⊗ call2 oscillator_dqH (Some qn ⊕ Some k2_P ⊗ sc lit_half)
                                 (Some pn ⊕ Some k2_P ⊗ sc lit_half)
          = Some k3_P ∧
          sc (1 # 10)%Q
          ⊗ call2 oscillator_dpH (Some qn ⊕ sc (1 # 10)%Q)
                                 (Some pn ⊕ Some k3_Q)
          = Some k4_Q ∧
          sc (rneg (1 # 10)%Q)
          ⊗ call2 oscillator_dqH (Some qn ⊕ sc (1 # 10)%Q)
                                 (Some pn ⊕ Some k3_P)
          = Some k4_P ∧
          Some qn ⊕ sc (rdiv (of_int 1) (of_int 6))
                    ⊗ (Some k1_Q ⊕ sc (of_int 2) ⊗ Some k2_Q
                                  ⊕ sc (of_int 2) ⊗ Some k3_Q ⊕ Some k4_Q)
          = Some qn1 ∧
          Some pn ⊕ sc (rdiv (of_int 1) (of_int 6))
                    ⊗ (Some k1_P ⊕ sc (of_int 2) ⊗ Some k2_P
                                  ⊕ sc (of_int 2) ⊗ Some k3_P ⊕ Some k4_P)
          = Some pn1.
Proof.
  apply (hamiltonian_solve_RK4_recurrence (R := Q)).
  - lia.
  - reflexivity.
  - reflexivity.
  - exact (oscillator_dqH_ok2 _).
  - exact (oscillator_dpH_ok2 _).
Defined.

Lemma trajectories_keep_shape_witness :
  (∃ T S,
     dynamics_solve (R := Q) linear_field 3 0%Q (Array [1%Q; 2%Q; 3%Q])
       (1 # 10)%Q 4 "RK4" = Some (T, S)
     ∧ length S = 4 + 1
     ∧ ∀ n v, S !! n = Some v → shape_of v = row_shape 3)
  ∧ (∃ T Qs Ps,
       hamiltonian_solve (R := Q) oscillator_dqH oscillator_dpH 3 0%Q
         (Array [0%Q; 0%Q; 0%Q]) (Array [1%Q; 0%Q; 0%Q]) (1 # 10)%Q 4
         "RK4" 0%Q 0%Q = Some (T, Qs, Ps)
       ∧ length Qs = 4 + 1 ∧ length Ps = 4 + 1
       ∧ ∀ n v, Qs !! n = Some v ∨ Ps !! n = Some v →
           shape_of v = row_shape 3).
Proof.
  apply (trajectories_keep_shape (R := Q)).
  - lia.
  - reflexivity.
  - reflexivity.
  - reflexivity.
  - exact (linear_field_ok _).
  - exact (oscillator_dqH_ok2 _).
  - exact (oscillator_dpH_ok2 _).
Defined.

Lemma dynamics_solve_horizon_witness :
  ∃ T S T' S',
    dynamics_solve (R := Q) linear_field 1 0%Q (Scalar 1%Q) (1 # 10)%Q 2
      "RK4" = Some (T, S)
    ∧ dynamics_solve (R := Q) linear_field 1 0%Q (Scalar 1%Q) (1 # 10)%Q 5
        "RK4" = Some (T', S')
    ∧ ∀ n, n ≤ 2 → T !! n = T' !! n ∧ S !! n = S' !! n.
Proof.
  apply (dynamics_solve_horizon (R := Q)).
  - lia.
  - reflexivity.
  - exact (linear_field_ok _).
  - lia.
Defined.

Lemma hamiltonian_solve_horizon_witness :
  ∃ T Qs Ps T' Qs' Ps',
    hamiltonian_solve (R := Q) oscillator_dqH oscillator_dpH 1 0%Q
      (Scalar 0%Q) (Scalar 1%Q) (1 # 10)%Q 2 "SV" 0%Q 0%Q = Some (T, Qs, Ps)
    ∧ hamiltonian_solve (R := Q) oscillator_dqH oscillator_dpH 1 0%Q
        (Scalar 0%Q) (Scalar 1%Q) (1 # 10)%Q 5 "SV" 0%Q 0%Q
      = Some (T', Qs', Ps')
    ∧ ∀ n, n ≤ 2 →
        T !! n = T' !! n ∧ Qs !! n = Qs' !! n ∧ Ps !! n = Ps' !! n.
Proof.
  apply (hamiltonian_solve_horizon (R := Q)).
  - lia.
  - reflexivity.
  - reflexivity.
  - exact (oscillator_dqH_ok3 _).
  - exact (oscillator_dpH_ok3 _).
  - lia.
Defined.

Lemma dimension_below_one_raises_witness :
  dynamics_solve (R := Q) linear_field 0 0%Q (Scalar 1%Q) (1 # 10)%Q 3
    "Euler" = None
  ∧ hamiltonian_solve (R := Q) oscillator_dqH oscillator_dpH 0 0%Q
      (Scalar 0%Q) (Scalar 1%Q) (1 # 10)%Q 3 "Euler" 0%Q 0%Q = None.
Proof.
  apply (dimension_below_one_raises (R := Q)). lia.
Defined.

Lemma initial_state_mismatch_raises_witness :
  dynamics_solve (R := Q) linear_field 2 0%Q (Array [1%Q; 2%Q; 3%Q])
    (1 # 10)%Q 3 "Euler" = None
  ∧ hamiltonian_solve (R := Q) oscillator_dqH oscillator_dpH 2 0%Q
      (Array [0%Q; 0%Q]) (Array [1%Q; 2%Q; 3%Q]) (1 # 10)%Q 3
      "Euler" 0%Q 0%Q = None
  ∧ hamiltonian_solve (R := Q) oscillator_dqH oscillator_dpH 2 0%Q
      (Array [1%Q; 2%Q; 3%Q]) (Array [0%Q; 0%Q]) (1 # 10)%Q 3
      "Euler" 0%Q 0%Q = None.
Proof.
  apply (initial_state_mismatch_raises (R := Q)).
  - lia.
  - simpl. lia.
  - right. simpl. lia.
Defined.

Lemma dynamics_solve_propagates_exception_witness :
  dynamics_solve (R := Q) raising 1 0%Q (Scalar 1%Q) (1 # 10)%Q 3 "RK2"
  = None.
Proof.
  apply (dynamics_solve_propagates_exception (R := Q)).
  - lia.
  - reflexivity.
  - reflexivity.
  - lia.
  - reflexivity.
Defined.

Lemma hamiltonian_solve_calling_convention_witness :
  hamiltonian_solve (R := Q) oscillator3_dqH oscillator3_dpH 1 0%Q
    (Scalar 0%Q) (Scalar 1%Q) (1 # 10)%Q 3 "RK4" 0%Q 0%Q = None
  ∧ hamiltonian_solve (R := Q) oscillator2_dqH oscillator2_dpH 1 0%Q
      (Scalar 0%Q) (Scalar 1%Q) (1 # 10)%Q 3 "SV" 0%Q 0%Q = None.
Proof.
  split.
  - refine (proj1 (hamiltonian_solve_calling_convention (R := Q)
                     oscillator3_dqH oscillator3_dpH 1 0%Q (Scalar 0%Q)
                     (Scalar 1%Q) (1 # 10)%Q 3 "RK4" 0%Q 0%Q _ _ _ _) _ _ _);
      [lia | reflexivity | reflexivity | lia | reflexivity
      | intros q p; reflexivity | intros q p; reflexivity].
  - refine (proj2 (hamiltonian_solve_calling_convention (R := Q)
                     oscillator2_dqH oscillator2_dpH 1 0%Q (Scalar 0%Q)
                     (Scalar 1%Q) (1 # 10)%Q 3 "SV" 0%Q 0%Q _ _ _ _) _ _ _);
      [lia | reflexivity | reflexivity | lia | reflexivity
      | intros q p t; reflexivity | intros q p t; reflexivity].
Defined.

Lemma scalar_initial_state_is_broadcast_witness :
  dynamics_solve (R := Q) linear_field 3 0%Q (Scalar 1%Q) (1 # 10)%Q 2 "Euler"
  = dynamics_solve (R := Q) linear_field 3 0%Q
      (Array (replicate (Z.to_nat 3) 1%Q)) (1 # 10)%Q 2 "Euler"
  ∧ hamiltonian_solve (R := Q) oscillator_dqH oscillator_dpH 3 0%Q
      (Scalar 1%Q) (Scalar 0%Q) (1 # 10)%Q 2 "Euler" 0%Q 0%Q
    = hamiltonian_solve (R := Q) oscillator_dqH oscillator_dpH 3 0%Q
        (Array (replicate (Z.to_nat 3) 1%Q))
        (Array (replicate (Z.to_nat 3) 0%Q)) (1 # 10)%Q 2 "Euler" 0%Q 0%Q.
Proof.
  apply (scalar_initial_state_is_broadcast (R := Q)). lia.
Defined.

Lemma dynamics_solve_autonomous_witness :
  ∃ T T' S,
    dynamics_solve (R := Q) linear_field 1 0%Q (Scalar 1%Q) (1 # 10)%Q 3
      "RK2" = Some (T, S)
    ∧ dynamics_solve (R := Q) linear_field 1 5%Q (Scalar 1%Q) (1 # 10)%Q 3
        "RK2" = Some (T', S).
Proof.
  apply (dynamics_solve_autonomous (R := Q)).
  - lia.
  - reflexivity.
  - exact (linear_field_ok _).
  - exact linear_field_autonomous.
Defined.

Lemma hamiltonian_solve_autonomous_witness :
  ∃ T T' Qs Ps,
    hamiltonian_solve (R := Q) oscillator_dqH oscillator_dpH 1 0%Q
      (Scalar 0%Q) (Scalar 1%Q) (1 # 10)%Q 3 "SV" 0%Q 0%Q = Some (T, Qs, Ps)
    ∧ hamiltonian_solve (R := Q) oscillator_dqH oscillator_dpH 1 5%Q
        (Scalar 0%Q) (Scalar 1%Q) (1 # 10)%Q 3 "SV" 0%Q 0%Q
      = Some (T', Qs, Ps).
Proof.
  apply (hamiltonian_solve_autonomous (R := Q)).
  - lia.
  - reflexivity.
  - reflexivity.
  - exact (oscillator_dqH_ok3 _).
  - exact (oscillator_dpH_ok3 _).
  - exact oscillator_dqH_ignores_time.
  - exact oscillator_dpH_ignores_time.
Defined.

Lemma hamiltonian_Euler_is_coupled_Euler_witness :
  ∃ T Qs Ps S,
    hamiltonian_solve (R := Q) oscillator_dqH oscillator_dpH 1 0%Q
      (Scalar 0%Q) (Scalar 1%Q) (1 # 10)%Q 4 "Euler" 0%Q 0%Q
    = Some (T, Qs, Ps)
    ∧ dynamics_solve (R := Q) (coupled_field oscillator_dqH oscillator_dpH) 2
        0%Q (Array [0%Q; 1%Q]) (1 # 10)%Q 4 "Euler" = Some (T, S)
    ∧ ∀ n, n ≤ 4 →
        ∃ q p,
          Qs !! n = Some (Scalar q) ∧ Ps !! n = Some (Scalar p)
          ∧ S !! n = Some (Array [q; p]).
Proof.
  apply (hamiltonian_Euler_is_coupled_Euler (R := Q)).
  - exact (Q_sub_is_add_neg _).
  - exact (oscillator_dqH_ok2 _).
  - exact (oscillator_dpH_ok2 _).
Defined.
